(** * libeyelink: the EyeLink session, its sequencing guards, the
      recording-start retry, sample and event retrieval, both drift
      corrections and the dummy tracker

    A shallow embedding of [eyelink_calibrate/libeyelink.py].  The
    instance attributes of [libeyelink] and the tracker reached through
    [pylink.getEYELINK()] form one explicit [world]; every method is a
    computation in a small state-and-exception monad whose outcomes keep
    the world they ended in, so that what an exception leaves behind can
    be stated.  The tracker is an environment: each of its queries is
    answered from a finite script of replies, and a call that needs a
    reply beyond the end of its script is [Pending] (it is still
    polling).  Gaze coordinates are integers (pixels); the code compares
    them with [!=] and [abs(..) > ..] only. *)

From Stdlib Require Import ZArith List String Ascii Bool Lia DecimalString.
Import ListNotations.
Open Scope string_scope.
Open Scope Z_scope.

(** ** Values exchanged with pylink *)

Definition coord : Type := (Z * Z)%type.

(** A link sample: [isLeftSample()]/[isRightSample()] say which eyes it
    carries, [getLeftEye().getGaze()]/[getRightEye().getGaze()] read them. *)
Record sample_data : Type := mkSample
  { left_gaze : option coord;
    right_gaze : option coord }.

Definition isLeftSample (s : sample_data) : bool :=
  match left_gaze s with Some _ => true | None => false end.

Definition isRightSample (s : sample_data) : bool :=
  match right_gaze s with Some _ => true | None => false end.

(** What [getFloatData()] hands out for an event: [getTime()],
    [getStartGaze()], [getEndGaze()]. *)
Record float_data : Type := mkFloatData
  { getTime : Z;
    getStartGaze : coord;
    getEndGaze : coord }.

(** One answer of [getNextData()]: the type code of the item taken off
    the link queue (0 when the queue was empty at that poll) and the data
    [getFloatData()] would return for it. *)
Record link_item : Type := mkItem
  { item_type : Z;
    item_data : float_data }.

(** pylink's event type codes. *)
Definition STARTBLINK : Z := 3.
Definition ENDBLINK : Z := 4.
Definition STARTSACC : Z := 5.
Definition ENDSACC : Z := 6.
Definition STARTFIX : Z := 7.
Definition ENDFIX : Z := 8.

(** A pylink call that may raise. *)
Inductive reply (A : Type) : Type :=
| Gives (a : A)
| Throws.
Arguments Gives {A} a.
Arguments Throws {A}.

(** The keys the fixation-triggered loop listens to
    ([keylist=["escape", "q"]]). *)
Inductive key : Type := K_escape | K_q.

(** Everything the methods do to the outside, newest first. *)
Inductive effect : Type :=
| E_sendCommand (cmd : string)
| E_sendMessage (msg : string)
| E_msecDelay (ms : Z)
| E_print (line : string)
| E_openDataFile (name : string)
| E_flushGetkeyQueue
| E_setOfflineMode
| E_openGraphicsEx
| E_doTrackerSetup
| E_doDriftCorrect (x y : Z)
| E_sendKeybutton (code : Z)
| E_getCalibrationResult
| E_applyDriftCorrect
| E_startRecording
| E_beginRealTimeMode (ms : Z)
| E_endRealTimeMode
| E_waitForBlockStart
| E_closeDataFile
| E_receiveDataFile (name : string)
| E_close.

Inductive exn : Type :=
| runtime_error (msg : string)
| UnboundLocalError (name : string)
| AttributeError (name : string)
| PylinkError.

(** ** The world *)

(** The attributes of a [libeyelink] instance that the methods read. *)
Record session : Type := mkSession
  { recording : bool;
    eye_used : option Z;
    resolution : Z * Z;
    data_file : string;
    cal_beep : bool;
    cal_target_size : Z }.

Definition left_eye : Z := 0.
Definition right_eye : Z := 1.
Definition binocular : Z := 2.

(** The tracker: its fixed answers and the scripts of its future ones.
    [EyeLink_error] is the text of the exception [pylink.EyeLink()] raises,
    if it does; [software_ver] is the number [__init__] parses out of
    [getTrackerVersionString()]. *)
Record tracker : Type := mkTracker
  { EyeLink_error : option string;
    isConnected : bool;
    eyeAvailable : Z;
    getTrackerVersion : Z;
    software_ver : Z;
    startRecording_replies : list Z;
    waitForBlockStart_replies : list bool;
    getNewestSample_replies : list (option sample_data);
    getCalibrationResult_replies : list (reply Z);
    doDriftCorrect_replies : list (reply Z);
    link_queue : list link_item;
    current_item : option link_item }.

(** [get_key_replies] scripts the keyboard polls ([get_key()[0]]) and
    [eyelink_global] says whether the module's [_eyelink] is set. *)
Record world : Type := mkWorld
  { self : session;
    eyelink : tracker;
    get_key_replies : list (option key);
    eyelink_global : bool;
    trace : list effect }.

Definition set_recording (b : bool) (s : session) : session :=
  mkSession b (eye_used s) (resolution s) (data_file s) (cal_beep s)
    (cal_target_size s).

Definition set_eye (e : option Z) (s : session) : session :=
  mkSession (recording s) e (resolution s) (data_file s) (cal_beep s)
    (cal_target_size s).

Definition set_cal (beep : bool) (size : Z) (s : session) : session :=
  mkSession (recording s) (eye_used s) (resolution s) (data_file s) beep size.

Definition with_startRecording (l : list Z) (t : tracker) : tracker :=
  mkTracker (EyeLink_error t) (isConnected t) (eyeAvailable t) (getTrackerVersion t)
    (software_ver t) l (waitForBlockStart_replies t)
    (getNewestSample_replies t) (getCalibrationResult_replies t)
    (doDriftCorrect_replies t) (link_queue t) (current_item t).

Definition with_waitForBlockStart (l : list bool) (t : tracker) : tracker :=
  mkTracker (EyeLink_error t) (isConnected t) (eyeAvailable t) (getTrackerVersion t)
    (software_ver t) (startRecording_replies t) l
    (getNewestSample_replies t) (getCalibrationResult_replies t)
    (doDriftCorrect_replies t) (link_queue t) (current_item t).

Definition with_getNewestSample (l : list (option sample_data))
    (t : tracker) : tracker :=
  mkTracker (EyeLink_error t) (isConnected t) (eyeAvailable t) (getTrackerVersion t)
    (software_ver t) (startRecording_replies t) (waitForBlockStart_replies t)
    l (getCalibrationResult_replies t)
    (doDriftCorrect_replies t) (link_queue t) (current_item t).

Definition with_getCalibrationResult (l : list (reply Z))
    (t : tracker) : tracker :=
  mkTracker (EyeLink_error t) (isConnected t) (eyeAvailable t) (getTrackerVersion t)
    (software_ver t) (startRecording_replies t) (waitForBlockStart_replies t)
    (getNewestSample_replies t) l
    (doDriftCorrect_replies t) (link_queue t) (current_item t).

Definition with_doDriftCorrect (l : list (reply Z)) (t : tracker) : tracker :=
  mkTracker (EyeLink_error t) (isConnected t) (eyeAvailable t) (getTrackerVersion t)
    (software_ver t) (startRecording_replies t) (waitForBlockStart_replies t)
    (getNewestSample_replies t) (getCalibrationResult_replies t)
    l (link_queue t) (current_item t).

Definition with_link (q : list link_item) (cur : option link_item)
    (t : tracker) : tracker :=
  mkTracker (EyeLink_error t) (isConnected t) (eyeAvailable t) (getTrackerVersion t)
    (software_ver t) (startRecording_replies t) (waitForBlockStart_replies t)
    (getNewestSample_replies t) (getCalibrationResult_replies t)
    (doDriftCorrect_replies t) q cur.

(** ** The monad *)

Inductive outcome (A : Type) : Type :=
| Return (a : A) (w : world)
| Raise (e : exn) (w : world)
| Pending (w : world).
Arguments Return {A} a w.
Arguments Raise {A} e w.
Arguments Pending {A} w.

Definition M (A : Type) : Type := world -> outcome A.

Definition ret {A} (a : A) : M A := fun w => Return a w.

Definition bind {A B} (c : M A) (k : A -> M B) : M B :=
  fun w =>
    match c w with
    | Return a w' => k a w'
    | Raise e w' => Raise e w'
    | Pending w' => Pending w'
    end.

Definition raise {A} (e : exn) : M A := fun w => Raise e w.

Definition pending {A} : M A := fun w => Pending w.

(** [try: c / except: h] with a bare [except]: every exception is caught. *)
Definition try_except {A} (c : M A) (h : M A) : M A :=
  fun w =>
    match c w with
    | Raise _ w' => h w'
    | o => o
    end.

Declare Scope m_scope.
Delimit Scope m_scope with m.
Notation "x <- c ;; k" := (bind c (fun x => k))
  (at level 61, c at next level, right associativity) : m_scope.
Notation "c ;; k" := (bind c (fun _ => k))
  (at level 61, right associativity) : m_scope.
Open Scope m_scope.

Definition get_self : M session := fun w => Return (self w) w.

Definition get_eyelink : M tracker := fun w => Return (eyelink w) w.

Definition get_keys : M (list (option key)) :=
  fun w => Return (get_key_replies w) w.

Definition get_global : M bool := fun w => Return (eyelink_global w) w.

Definition upd_self (f : session -> session) : M unit :=
  fun w => Return tt
    (mkWorld (f (self w)) (eyelink w) (get_key_replies w) (eyelink_global w)
       (trace w)).

Definition upd_eyelink (f : tracker -> tracker) : M unit :=
  fun w => Return tt
    (mkWorld (self w) (f (eyelink w)) (get_key_replies w) (eyelink_global w)
       (trace w)).

Definition set_keys (l : list (option key)) : M unit :=
  fun w => Return tt
    (mkWorld (self w) (eyelink w) l (eyelink_global w) (trace w)).

Definition set_global (b : bool) : M unit :=
  fun w => Return tt
    (mkWorld (self w) (eyelink w) (get_key_replies w) b (trace w)).

Definition emit (e : effect) : M unit :=
  fun w => Return tt
    (mkWorld (self w) (eyelink w) (get_key_replies w) (eyelink_global w)
       (e :: trace w)).

Definition fmt_d (z : Z) : string := NilZero.string_of_int (Z.to_int z).

(** ** [os.path.splitext] (posixpath: separator [/], extension separator [.]) *)

Fixpoint rfind_from (c : ascii) (p : list ascii) (i : Z) : Z :=
  match p with
  | [] => -1
  | a :: p' =>
      let r := rfind_from c p' (i + 1) in
      if 0 <=? r then r else if Ascii.eqb a c then i else -1
  end.

(** [p.rfind(c)]: the index of the last [c] in [p], or -1. *)
Definition rfind (c : ascii) (p : list ascii) : Z := rfind_from c p 0.

(** [p[i:j]] for [0 <= i]. *)
Definition slice (p : list ascii) (i j : Z) : list ascii :=
  firstn (Z.to_nat (j - i)) (skipn (Z.to_nat i) p).

(** The extension starts at the last dot of the last path component,
    unless that component has only dots before it. *)
Definition splitext (p : list ascii) : list ascii * list ascii :=
  let sepIndex := rfind "/"%char p in
  let dotIndex := rfind "."%char p in
  if sepIndex <? dotIndex then
    if existsb (fun a => negb (Ascii.eqb a "."%char)) (slice p (sepIndex + 1) dotIndex)
    then (firstn (Z.to_nat dotIndex) p, skipn (Z.to_nat dotIndex) p)
    else (p, [])
  else (p, []).

Definition len {A} (l : list A) : Z := Z.of_nat (List.length l).

(** ** class libeyelink *)

Definition MAX_TRY : Z := 100.

Definition send_command (cmd : string) : M unit := emit (E_sendCommand cmd).

Definition log (msg : string) : M unit := emit (E_sendMessage msg).

Definition log_var (var val : string) : M unit :=
  emit (E_sendMessage ("var " ++ var ++ " " ++ val)).

Definition status_msg (msg : string) : M unit :=
  emit (E_sendCommand ("record_status_message '" ++ msg ++ "'")).

Definition connected : M bool :=
  t <- get_eyelink ;; ret (isConnected t).

(** [pylink.getEYELINK().waitForBlockStart(100, 1, 0)] *)
Definition waitForBlockStart : M bool :=
  t <- get_eyelink ;;
  match waitForBlockStart_replies t with
  | [] => pending
  | b :: rest =>
      upd_eyelink (with_waitForBlockStart rest) ;;
      emit E_waitForBlockStart ;;
      ret b
  end.

Definition getNewestSample : M (option sample_data) :=
  t <- get_eyelink ;;
  match getNewestSample_replies t with
  | [] => pending
  | s :: rest => upd_eyelink (with_getNewestSample rest) ;; ret s
  end.

Definition getCalibrationResult : M Z :=
  t <- get_eyelink ;;
  match getCalibrationResult_replies t with
  | [] => pending
  | r :: rest =>
      upd_eyelink (with_getCalibrationResult rest) ;;
      emit E_getCalibrationResult ;;
      match r with Gives z => ret z | Throws => raise PylinkError end
  end.

(** [pylink.getEYELINK().doDriftCorrect(x, y, 0, 1)] *)
Definition doDriftCorrect (x y : Z) : M Z :=
  t <- get_eyelink ;;
  match doDriftCorrect_replies t with
  | [] => pending
  | r :: rest =>
      upd_eyelink (with_doDriftCorrect rest) ;;
      emit (E_doDriftCorrect x y) ;;
      match r with Gives z => ret z | Throws => raise PylinkError end
  end.

Definition getFloatData : M (option float_data) :=
  t <- get_eyelink ;; ret (option_map item_data (current_item t)).

Definition libeyelink_init (resolution : Z * Z) (data_file : string)
    (saccade_velocity_threshold saccade_acceleration_threshold : Z) : M unit :=
  let '(stem, ext) := splitext (list_ascii_of_string data_file) in
  if (8 <? len stem) || (4 <? len ext) then
    raise (runtime_error "The Eyelink cannot handle filenames longer than 8 characters (plus .EDF extension)")
  else
    upd_self (fun _ => mkSession false None resolution data_file true 16) ;;
    g <- get_global ;;
    (if g then ret tt
     else
       t <- get_eyelink ;;
       match EyeLink_error t with
       | Some e =>
           raise (runtime_error ("Failed to connect to the tracker: " ++ e))
       | None => set_global true ;; emit E_openGraphicsEx
       end) ;;
    emit (E_openDataFile data_file) ;;
    emit E_flushGetkeyQueue ;;
    emit E_setOfflineMode ;;
    send_command ("screen_pixel_coords =  0 0 " ++ fmt_d (fst resolution)
                    ++ " " ++ fmt_d (snd resolution)) ;;
    t <- get_eyelink ;;
    let eyelink_ver := getTrackerVersion t in
    let tracker_software_ver :=
      if eyelink_ver =? 3 then software_ver t else 0 in
    (if 2 <=? eyelink_ver then
       send_command "select_parser_configuration 0" ;;
       (if eyelink_ver =? 2 then send_command "scene_camera_gazemap = NO"
        else ret tt)
     else
       (* the attribute was stored as saccade_velocity_treshold *)
       raise (AttributeError "saccade_velocity_threshold")) ;;
    send_command "file_event_filter = LEFT,RIGHT,FIXATION,SACCADE,BLINK,MESSAGE,BUTTON" ;;
    (if 4 <=? tracker_software_ver then
       send_command "file_sample_data  = LEFT,RIGHT,GAZE,AREA,GAZERES,STATUS,HTARGET"
     else
       send_command "file_sample_data  = LEFT,RIGHT,GAZE,AREA,GAZERES,STATUS") ;;
    send_command "link_event_filter = LEFT,RIGHT,FIXATION,SACCADE,BLINK,BUTTON" ;;
    (if 4 <=? tracker_software_ver then
       send_command "link_sample_data  = LEFT,RIGHT,GAZE,GAZERES,AREA,STATUS,HTARGET"
     else
       send_command "link_sample_data  = LEFT,RIGHT,GAZE,GAZERES,AREA,STATUS") ;;
    send_command "button_function 5 'accept_target_fixation'" ;;
    c <- connected ;;
    if negb c then raise (runtime_error "Failed to connect to the eyetracker")
    else ret tt.

Definition calibrate (beep : bool) (target_size : Z) : M unit :=
  s <- get_self ;;
  if recording s then
    raise (runtime_error "Trying to calibrate after recording has started")
  else
    upd_self (set_cal beep target_size) ;;
    emit E_doTrackerSetup.

Definition set_eye_used : M unit :=
  t <- get_eyelink ;;
  upd_self (set_eye (Some (eyeAvailable t))) ;;
  if eyeAvailable t =? right_eye then log_var "eye_used" "right"
  else if (eyeAvailable t =? left_eye) || (eyeAvailable t =? binocular) then
    log_var "eye_used" "left" ;;
    upd_self (set_eye (Some left_eye))
  else
    raise (runtime_error "Failed to determine which eye is being recorded").

(** [self.eye_used == eye] *)
Definition eye_is (s : session) (eye : Z) : bool :=
  match eye_used s with
  | Some e => e =? eye
  | None => false
  end.

(** The local [gaze] is bound on two of the paths only; [None] stands for
    the unbound name that [return gaze] then trips over. *)
Definition sample : M coord :=
  s <- get_self ;;
  if negb (recording s) then
    raise (runtime_error "Please start recording before collecting eyelink data")
  else
    (match eye_used s with
     | None => set_eye_used
     | Some _ => ret tt
     end) ;;
    smp <- getNewestSample ;;
    s <- get_self ;;
    let gaze :=
      match smp with
      | Some d =>
          if eye_is s right_eye && isRightSample d then right_gaze d
          else if eye_is s left_eye && isLeftSample d then left_gaze d
          else None
      | None => None
      end in
    match gaze with
    | Some g => ret g
    | None => raise (UnboundLocalError "gaze")
    end.

(** [while d != event: d = getNextData()], driven by the link queue. *)
Fixpoint getNextData_until (event : Z) (queue : list link_item) (d : Z)
    {struct queue} : M unit :=
  if d =? event then ret tt
  else
    match queue with
    | [] => pending
    | it :: rest =>
        upd_eyelink (with_link rest (Some it)) ;;
        getNextData_until event rest (item_type it)
    end.

Definition wait_for_event (event : Z) : M (option float_data) :=
  s <- get_self ;;
  if negb (recording s) then
    raise (runtime_error "Please start recording before collecting eyelink data")
  else
    (match eye_used s with
     | None => set_eye_used
     | Some _ => ret tt
     end) ;;
    t <- get_eyelink ;;
    getNextData_until event (link_queue t) 0 ;;
    getFloatData.

(** [d.getTime(), ...] on what [wait_for_event] returned; on [None] the
    attribute lookup fails. *)
Definition project {A} (f : float_data -> A) (d : option float_data) : M A :=
  match d with
  | Some d => ret (f d)
  | None => raise (AttributeError "getTime")
  end.

Definition wait_for_saccade_start : M (Z * coord) :=
  d <- wait_for_event STARTSACC ;;
  project (fun d => (getTime d, getStartGaze d)) d.

Definition wait_for_saccade_end : M (Z * coord * coord) :=
  d <- wait_for_event ENDSACC ;;
  project (fun d => (getTime d, getStartGaze d, getEndGaze d)) d.

Definition wait_for_fixation_start : M (Z * coord) :=
  d <- wait_for_event STARTFIX ;;
  project (fun d => (getTime d, getStartGaze d)) d.

Definition wait_for_fixation_end : M (Z * coord * coord) :=
  d <- wait_for_event ENDFIX ;;
  project (fun d => (getTime d, getStartGaze d, getEndGaze d)) d.

Definition wait_for_blink_start : M Z :=
  d <- wait_for_event STARTBLINK ;;
  project getTime d.

Definition wait_for_blink_end : M Z :=
  d <- wait_for_event ENDBLINK ;;
  project getTime d.

Definition prepare_drift_correction (pos : coord) : M unit :=
  send_command "heuristic_filter = ON" ;;
  send_command ("drift_correction_targets = " ++ fmt_d (fst pos) ++ " "
                  ++ fmt_d (snd pos)) ;;
  send_command "start_drift_correction data = 0 0 1 0" ;;
  emit (E_msecDelay 50) ;;
  ok <- waitForBlockStart ;;
  if negb ok then
    raise (runtime_error "Failed to perform drift correction (waitForBlockStart error)")
  else ret tt.

Definition sum (l : list Z) : Z := fold_left Z.add l 0.

(** [l[-1]] on a non-empty list. *)
Definition last_of (l : list Z) : Z := last l 0.

(** The buffer update of one iteration, lines 346-359: a sample equal to
    the last accepted one is skipped, one that is too far from it empties
    both lists, any other is appended. *)
Definition collect (reset_threshold : Z) (lx ly : list Z) (x y : Z)
    : list Z * list Z :=
  if (len lx =? 0) || negb (x =? last_of lx) || negb (y =? last_of ly) then
    if (0 <? len lx)
       && ((reset_threshold <? Z.abs (x - last_of lx))
           || (reset_threshold <? Z.abs (y - last_of ly)))
    then ([], [])
    else ((lx ++ [x])%list, (ly ++ [y])%list)
  else (lx, ly).

(** The [while len(lx) < min_samples] loop, driven by the keyboard polls
    that open each iteration.  [d] is computed and never read. *)
Fixpoint fix_loop (keys : list (option key)) (pos : coord)
    (min_samples reset_threshold : Z) (lx ly : list Z) {struct keys}
    : M bool :=
  if len lx <? min_samples then
    match keys with
    | [] => pending
    | k :: keys' =>
        set_keys keys' ;;
        match k with
        | Some _ =>
            upd_self (set_recording false) ;;
            emit (E_print "libeyelink.fix_triggered_drift_correction(): 'q' pressed") ;;
            ret false
        | None =>
            xy <- sample ;;
            let '(lx, ly) := collect reset_threshold lx ly (fst xy) (snd xy) in
            if len lx =? min_samples then
              let avg_x := sum lx / len lx in
              let avg_y := sum ly / len ly in
              let d := Z.sqrt ((avg_x - fst pos) ^ 2 + (avg_y - snd pos) ^ 2) in
              emit (E_sendKeybutton 32) ;;
              r <- try_except
                     (result <- getCalibrationResult ;; ret (result, lx, ly))
                     (emit (E_print "libeyelink.fix_triggered_drift_correction(): try again") ;;
                      ret (-1, [], [])) ;;
              let '(result, lx, ly) := r in
              if negb (result =? 0) then
                emit (E_print "libeyelink.fix_triggered_drift_correction(): try again") ;;
                fix_loop keys' pos min_samples reset_threshold [] []
              else fix_loop keys' pos min_samples reset_threshold lx ly
            else fix_loop keys' pos min_samples reset_threshold lx ly
        end
    end
  else
    emit E_applyDriftCorrect ;;
    upd_self (set_recording false) ;;
    emit (E_print "libeyelink.fix_triggered_drift_correction(): success") ;;
    ret true.

Definition default_pos (s : session) (pos : option coord) : coord :=
  match pos with
  | None => (fst (resolution s) / 2, snd (resolution s) / 2)
  | Some p => p
  end.

Definition fix_triggered_drift_correction (pos : option coord)
    (min_samples max_dev reset_threshold : Z) : M bool :=
  s <- get_self ;;
  if recording s then
    raise (runtime_error "Trying to do drift correction after recording has started")
  else
    upd_self (set_recording true) ;;
    let pos := default_pos s pos in
    prepare_drift_correction pos ;;
    keys <- get_keys ;;
    fix_loop keys pos min_samples reset_threshold [] [].

(** Every path through the body of [while True] leaves the method, so the
    loop runs its body once. *)
Definition drift_correction (pos : option coord) (fix_triggered : bool)
    : M bool :=
  s <- get_self ;;
  if recording s then
    raise (runtime_error "Trying to do drift correction after recording has started")
  else if fix_triggered then fix_triggered_drift_correction pos 30 60 10
  else
    let pos := default_pos s pos in
    c <- connected ;;
    if negb c then raise (runtime_error "The eyelink is not connected")
    else
      try_except
        (error <- doDriftCorrect (fst pos) (snd pos) ;;
         if negb (error =? 27) then
           emit (E_print "libeyelink.drift_correction(): success") ;;
           ret true
         else
           emit (E_print "libeyelink.drift_correction(): escape pressed") ;;
           ret false)
        (emit (E_print "libeyelink.drift_correction(): try again") ;;
         ret false).

(** The [while True] retry loop of [start_recording], driven by the
    tracker's answers to [startRecording(1, 1, 1, 1)]. *)
Fixpoint startRecording_loop (replies : list Z) (i : Z) {struct replies}
    : M unit :=
  match replies with
  | [] => pending
  | error :: rest =>
      upd_eyelink (with_startRecording rest) ;;
      emit E_startRecording ;;
      if error =? 0 then ret tt
      else if MAX_TRY <? i then
        raise (runtime_error "Failed to start recording (startRecording error)")
      else
        emit (E_print ("libeyelink.start_recording(): failed to start recording (attempt "
                         ++ fmt_d (i + 1) ++ " of " ++ fmt_d MAX_TRY ++ ")")) ;;
        emit (E_msecDelay 100) ;;
        startRecording_loop rest (i + 1)
  end.

Definition start_recording : M unit :=
  upd_self (set_recording true) ;;
  t <- get_eyelink ;;
  startRecording_loop (startRecording_replies t) 0 ;;
  emit (E_beginRealTimeMode 100) ;;
  ok <- waitForBlockStart ;;
  if negb ok then
    raise (runtime_error "Failed to start recording (waitForBlockStart error)")
  else ret tt.

Definition stop_recording : M unit :=
  upd_self (set_recording false) ;;
  emit E_endRealTimeMode ;;
  emit E_setOfflineMode ;;
  emit (E_msecDelay 500).

Definition close : M unit :=
  s <- get_self ;;
  (if recording s then stop_recording else ret tt) ;;
  emit (E_print "libeyelink: closing data file") ;;
  emit E_closeDataFile ;;
  emit (E_msecDelay 100) ;;
  emit (E_print "libeyelink: transferring data file") ;;
  emit (E_receiveDataFile (data_file s)) ;;
  emit (E_msecDelay 100) ;;
  emit (E_print "libeyelink: closing eyelink") ;;
  emit E_close ;;
  emit (E_msecDelay 100).

(** ** class libeyelink_dummy *)

(** Python values as the two classes return them, to compare their
    shapes. *)
#[local] Unset Elimination Schemes.
Inductive pyval : Type :=
| PyNone
| PyBool (b : bool)
| PyNum (z : Z)
| PyTuple (items : list pyval).

Inductive shape : Type :=
| ShNone
| ShBool
| ShNum
| ShTuple (items : list shape).
#[local] Set Elimination Schemes.

Fixpoint shape_of (v : pyval) : shape :=
  match v with
  | PyNone => ShNone
  | PyBool _ => ShBool
  | PyNum _ => ShNum
  | PyTuple items => ShTuple (map shape_of items)
  end.

(** [len(v)] of a returned tuple. *)
Definition arity (v : pyval) : option nat :=
  match v with
  | PyTuple items => Some (List.length items)
  | _ => None
  end.

Definition py_coord (c : coord) : pyval := PyTuple [PyNum (fst c); PyNum (snd c)].

Definition py_time_start (r : Z * coord) : pyval :=
  PyTuple [PyNum (fst r); py_coord (snd r)].

Definition py_time_start_end (r : Z * coord * coord) : pyval :=
  PyTuple [PyNum (fst (fst r)); py_coord (snd (fst r)); py_coord (snd r)].

Module libeyelink_dummy.

(** The dummy touches pygame's clock and standard output only. *)
Record env : Type := mkEnv
  { ticks : Z;
    stdout : list string }.

(** No outcome but a value: the methods cannot raise. *)
Definition D (A : Type) : Type := env -> A * env.

Definition unit_ {A} (a : A) : D A := fun e => (a, e).

Definition then_ {A B} (c : D A) (k : A -> D B) : D B :=
  fun e => let '(a, e') := c e in k a e'.

(** [pygame.time.delay(ms)] *)
Definition delay (ms : Z) : D unit :=
  fun e => (tt, mkEnv (ticks e + ms) (stdout e)).

(** [pygame.time.get_ticks()] *)
Definition get_ticks : D Z := fun e => (ticks e, e).

Definition pass : D pyval := unit_ PyNone.

Definition origin : pyval := PyTuple [PyNum 0; PyNum 0].

Definition send_command (cmd : string) : D pyval := pass.

Definition log (msg : string) : D pyval :=
  fun e => (PyNone, mkEnv (ticks e) (("libeyelink.log(): " ++ msg) :: stdout e)).

Definition log_var (var val : string) : D pyval := pass.

Definition status_msg (msg : string) : D pyval := pass.

Definition connected : D pyval := pass.

Definition calibrate (beep : bool) (target_size : Z) : D pyval := pass.

Definition drift_correction (pos : option coord) (fix_triggered : bool)
    : D pyval :=
  then_ (delay 200) (fun _ => unit_ (PyBool true)).

Definition prepare_drift_correction (pos : coord) : D pyval := pass.

Definition fix_triggered_drift_correction (pos : option coord)
    (min_samples max_dev reset_threshold : Z) : D pyval :=
  then_ (delay 200) (fun _ => unit_ (PyBool true)).

Definition start_recording : D pyval := pass.

Definition stop_recording : D pyval := pass.

Definition close : D pyval := pass.

Definition set_eye_used : D pyval := pass.

Definition sample : D pyval := unit_ origin.

Definition wait_for_event (event : Z) : D pyval := pass.

Definition wait_for_saccade_start : D pyval :=
  then_ (delay 100) (fun _ =>
  then_ get_ticks (fun t => unit_ (PyTuple [PyNum t; origin]))).

Definition wait_for_saccade_end : D pyval :=
  then_ (delay 100) (fun _ =>
  then_ get_ticks (fun t => unit_ (PyTuple [PyNum t; origin; origin]))).

Definition wait_for_fixation_start : D pyval :=
  then_ (delay 100) (fun _ =>
  then_ get_ticks (fun t => unit_ (PyTuple [PyNum t; origin]))).

Definition wait_for_fixation_end : D pyval :=
  then_ (delay 100) (fun _ =>
  then_ get_ticks (fun t => unit_ (PyTuple [PyNum t; origin]))).

Definition wait_for_blink_start : D pyval :=
  then_ (delay 100) (fun _ =>
  then_ get_ticks (fun t => unit_ (PyTuple [PyNum t; origin]))).

Definition wait_for_blink_end : D pyval :=
  then_ (delay 100) (fun _ =>
  then_ get_ticks (fun t => unit_ (PyTuple [PyNum t; origin]))).

End libeyelink_dummy.

(** ** class eyelink_graphics *)

Module eyelink_graphics.

(** pylink's key codes, pygame's [KMOD_NONE] and pylink's beep ids. *)
Definition ENTER_KEY : Z := 13.
Definition ESC_KEY : Z := 27.
Definition CURS_UP : Z := 18432.
Definition CURS_DOWN : Z := 20480.
Definition CURS_LEFT : Z := 19200.
Definition CURS_RIGHT : Z := 19712.
Definition KMOD_NONE : Z := 0.
Definition CAL_TARG_BEEP : Z := 1.
Definition CAL_GOOD_BEEP : Z := 0.
Definition CAL_ERR_BEEP : Z := -1.
Definition DC_ERR_BEEP : Z := -2.

(** [ord(c)] *)
Definition ord (c : ascii) : Z := Z.of_N (N_of_ascii c).

(** The three synths made by [__init__]. *)
Inductive sound : Type :=
| target_beep
| target_beep_done
| target_beep_error.

(** What the methods do to the canvas, the synths, the tracker and standard
    output, newest first.  [O_circle] carries whether the circle is drawn
    in the experiment's background colour; [O_image] is the frame saved
    to the temporary file and shown at scale 2. *)
Inductive output : Type :=
| O_clear
| O_text (msg : string) (y : option Z)
| O_circle (x y r : Z) (background : bool)
| O_show
| O_play (s : sound)
| O_sendCommand (cmd : string)
| O_print (line : string)
| O_image (frame : list Z) (size : Z * Z).

(** The instance attributes, [my_canvas.ycenter()] and the outputs so
    far. *)
Record graphics : Type := mkGraphics
  { state : option string;
    imagebuffer : list Z;
    pal : option (list Z);
    size : Z * Z;
    last_mouse_state : Z;
    tracker_version : Z;
    ycenter : Z;
    out : list output }.

Inductive gexn : Type :=
| IndexError
| FrameError.

Definition put (o : output) (g : graphics) : graphics :=
  mkGraphics (state g) (imagebuffer g) (pal g) (size g) (last_mouse_state g)
    (tracker_version g) (ycenter g) (o :: out g).

Definition set_state (st : option string) (g : graphics) : graphics :=
  mkGraphics st (imagebuffer g) (pal g) (size g) (last_mouse_state g)
    (tracker_version g) (ycenter g) (out g).

Definition set_imagebuffer (b : list Z) (g : graphics) : graphics :=
  mkGraphics (state g) b (pal g) (size g) (last_mouse_state g)
    (tracker_version g) (ycenter g) (out g).

Definition set_pal (p : option (list Z)) (g : graphics) : graphics :=
  mkGraphics (state g) (imagebuffer g) p (size g) (last_mouse_state g)
    (tracker_version g) (ycenter g) (out g).

Definition set_tracker (t : tracker) (g : graphics) : graphics :=
  let g :=
    mkGraphics (state g) (imagebuffer g) (pal g) (size g) (last_mouse_state g)
      (getTrackerVersion t) (ycenter g) (out g) in
  if 3 <=? tracker_version g then
    put (O_sendCommand "enable_camera_position_detect=YES")
      (put (O_sendCommand "autothreshold_repeat=YES")
         (put (O_sendCommand "autothreshold_click=YES")
            (put (O_sendCommand "track_search_limits=YES")
               (put (O_sendCommand "enable_search_limits=YES") g))))
  else g.

(** [__init__], on a canvas whose vertical centre is [yc]. *)
Definition init (yc : Z) (t : tracker) : graphics :=
  let g := set_tracker t (mkGraphics None [] None (0, 0) 0 0 yc []) in
  mkGraphics (state g) (imagebuffer g) (pal g) (size g) (-1)
    (tracker_version g) (ycenter g) (out g).

Definition setup_cal_display (g : graphics) : graphics :=
  let yc := ycenter g in
  let ld := 40 in
  put O_show
    (put (O_text "Left/ Right: Switch camera view" (Some (yc + 3 * ld)))
    (put (O_text "Up/ Down: Adjust threshold" (Some (yc + 2 * ld)))
    (put (O_text "A: Automatically adjust threshold" (Some (yc + 1 * ld)))
    (put (O_text "Q: Exit set-up" (Some (yc - 0 * ld)))
    (put (O_text "V: Validation" (Some (yc - 1 * ld)))
    (put (O_text "C: Calibration" (Some (yc - 2 * ld)))
    (put (O_text "Enter: Enter camera set-up" (Some (yc - 3 * ld)))
    (put (O_text "OpenSesame eyelink plug-in" (Some (yc - 5 * ld)))
    (put O_clear g))))))))).

Definition clear_cal_display (g : graphics) : graphics :=
  put O_show (put O_clear g).

Definition exit_cal_display (g : graphics) : graphics :=
  put O_show (put O_clear g).

Definition exit_image_display (g : graphics) : graphics :=
  clear_cal_display g.

Definition alert_printf (msg : string) (g : graphics) : graphics :=
  put (O_print ("eyelink_graphics.alert_printf(): " ++ msg)) g.

Definition play_beep (beepid : Z) (g : graphics) : graphics :=
  if beepid =? CAL_TARG_BEEP then put (O_play target_beep) g
  else if (beepid =? CAL_ERR_BEEP) || (beepid =? DC_ERR_BEEP) then
    put (O_play target_beep_error)
      (put O_show
         (put (O_text "Press 'Enter' to return to menu" (Some (ycenter g + 20)))
            (put (O_text "Calibration unsuccessfull" (Some (ycenter g - 20)))
               (put O_clear g))))
  else if beepid =? CAL_GOOD_BEEP then
    let g1 := put O_clear g in
    let g2 :=
      match state g with
      | Some st =>
          if String.eqb st "calibration" then
            put (O_text "Press 'v' to validate" (Some (ycenter g + 20)))
              (put (O_text "Success!" (Some (ycenter g - 20))) g1)
          else if String.eqb st "validation" then
            put (O_text "Press 'Enter' to return to menu" (Some (ycenter g + 20)))
              (put (O_text "Success!" (Some (ycenter g - 20))) g1)
          else put (O_text "Press 'Enter' to return to menu" None) g1
      | None => put (O_text "Press 'Enter' to return to menu" None) g1
      end in
    put (O_play target_beep_done) (put O_show g2)
  else g.

(** The target is drawn with the session's [cal_target_size] and beeps
    if its [cal_beep] is set. *)
Definition draw_cal_target (s : session) (x y : Z) (g : graphics) : graphics :=
  let g :=
    put O_show
      (put (O_circle x y 2 true)
         (put (O_circle x y (cal_target_size s) false) (put O_clear g))) in
  if cal_beep s then play_beep CAL_TARG_BEEP g else g.

(** [poll] is what [my_keyboard.get_key()] does: raise, time out, or give
    a key, here by the name [to_chr] gives it.  The result is [None] or
    the list of one [KeyInput(keycode, KMOD_NONE)]. *)
Definition get_input_key (poll : reply (option string)) (g : graphics)
    : option (list (Z * Z)) * graphics :=
  match poll with
  | Throws => (None, g)
  | Gives None => (None, g)
  | Gives (Some key) =>
      let '(keycode, g) :=
        if String.eqb key "return" then (ENTER_KEY, set_state None g)
        else if String.eqb key "space" then (ord " ", g)
        else if String.eqb key "q" then (ESC_KEY, set_state None g)
        else if String.eqb key "c" then (ord "c", set_state (Some "calibration") g)
        else if String.eqb key "v" then (ord "v", set_state (Some "validation") g)
        else if String.eqb key "a" then (ord "a", g)
        else if String.eqb key "up" then (CURS_UP, g)
        else if String.eqb key "down" then (CURS_DOWN, g)
        else if String.eqb key "left" then (CURS_LEFT, g)
        else if String.eqb key "right" then (CURS_RIGHT, g)
        else (0, g) in
      (Some [(keycode, KMOD_NONE)], g)
  end.

Definition setup_image_display (width height : Z) (g : graphics) : graphics :=
  let g :=
    mkGraphics (state g) (imagebuffer g) (pal g) (width, height)
      (last_mouse_state g) (tracker_version g) (ycenter g) (out g) in
  let g := clear_cal_display g in
  mkGraphics (state g) [] (pal g) (size g) (-1) (tracker_version g)
    (ycenter g) (out g).

(** [l[k]] as Python indexes a list: from the end when [k] is negative. *)
Definition py_index {A} (l : list A) (k : Z) : option A :=
  if 0 <=? k then nth_error l (Z.to_nat k)
  else if - len l <=? k then nth_error l (Z.to_nat (len l + k))
  else None.

(** [(rf << 16) | (gf << 8) | bf] *)
Definition pack (rf gf bf : Z) : Z :=
  Z.lor (Z.lor (Z.shiftl rf 16) (Z.shiftl gf 8)) bf.

(** The [while i < sz] loop of [set_image_palette] with [n = sz - i]
    rounds to go; an index past the end of [b] or [g] raises. *)
Fixpoint palette_loop (n i : nat) (r g b pal : list Z)
    : list Z * option gexn :=
  match n with
  | O => (pal, None)
  | S n' =>
      match nth_error b i with
      | None => (pal, Some IndexError)
      | Some rf =>
          match nth_error g i with
          | None => (pal, Some IndexError)
          | Some gf =>
              match nth_error r i with
              | None => (pal, Some IndexError)
              | Some bf =>
                  palette_loop n' (S i) r g b (pal ++ [pack rf gf bf])%list
              end
          end
      end
  end.

Definition set_image_palette (r g b : list Z) (gr : graphics)
    : option gexn * graphics :=
  let gr := clear_cal_display (set_imagebuffer [] gr) in
  let '(pal, e) := palette_loop (List.length r) 0 r g b [] in
  (e, set_pal (Some pal) gr).

(** One round of [for i in range(width)]: any failure of
    [self.imagebuffer.append(self.pal[buff[i]])] is swallowed.
    [fits_long] says which integers an [array.array('l')] takes. *)
Definition append_pixel (fits_long : Z -> bool) (pal : option (list Z))
    (buff : list Z) (ib : list Z) (i : nat) : list Z :=
  match pal, nth_error buff i with
  | Some p, Some k =>
      match py_index p k with
      | Some v => if fits_long v then (ib ++ [v])%list else ib
      | None => ib
      end
  | _, _ => ib
  end.

(** [frame] is what building the image out of the buffer (lines
    1041-1045) does: succeed, or raise. *)
Definition draw_image_line (fits_long : Z -> bool) (frame : reply unit)
    (width line totlines : Z) (buff : list Z) (g : graphics)
    : option gexn * graphics :=
  let ib :=
    fold_left (append_pixel fits_long (pal g) buff)
      (seq 0 (Z.to_nat width)) (imagebuffer g) in
  let g := set_imagebuffer ib g in
  if line =? totlines then
    match frame with
    | Throws => (Some FrameError, g)
    | Gives _ =>
        (None,
         set_imagebuffer []
           (put O_show (put (O_image ib (size g)) (put O_clear g))))
    end
  else (None, g).

End eyelink_graphics.

(** ** [libeyelink.set_backdrop] *)

(** The [prepped_backdrop_image] argument: [None], a list of lines of
    pixels, or a value of another type. *)
Inductive backdrop_image : Type :=
| B_None
| B_list (lines : list (list (Z * Z * Z)))
| B_other.

Inductive backdrop_outcome : Type :=
| bitmapBackdrop (width height : Z) (image : list (list (Z * Z * Z)))
| backdrop_runtime_error (msg : string)
| backdrop_IndexError
| backdrop_NameError (name : string).

(** What [set_backdrop] ends in: the one [bitmapBackdrop(width, height,
    image, 0, 0, width, height, 0, 0, BX_MAXCONTRAST)] call it makes, or
    the exception.  Without a prepared image it calls the undefined
    global [prepare_backdrop]. *)
Definition set_backdrop (canvas_backend : string)
    (prepped_backdrop_image : backdrop_image) : backdrop_outcome :=
  if negb (String.eqb canvas_backend "legacy") then
    backdrop_runtime_error "prepare_backdrop requires the legacy back-end"
  else
    match prepped_backdrop_image with
    | B_list lines =>
        match lines with
        | [] => backdrop_IndexError
        | first :: _ => bitmapBackdrop (len first) (len lines) lines
        end
    | B_other => backdrop_runtime_error "Backdrop image has invalid format"
    | B_None => backdrop_NameError "prepare_backdrop"
    end.

(** ** Worlds to run the methods in *)

Definition fresh_session : session :=
  mkSession false None (1024, 768) "default.edf" true 16.

(** A reachable tracker: connected, tracking the right eye, every script
    empty. *)
Definition idle_tracker : tracker :=
  mkTracker None true right_eye 3 4 [] [] [] [] [] [] None.

Definition world_of (s : session) (t : tracker) (keys : list (option key))
    : world :=
  mkWorld s t keys true [].


(** ** Vocabulary of the statements *)

(** How many [startRecording] commands a trace holds. *)
Fixpoint startRecording_calls (tr : list effect) : nat :=
  match tr with
  | [] => 0
  | E_startRecording :: tr' => S (startRecording_calls tr')
  | _ :: tr' => startRecording_calls tr'
  end.

Definition start_error : exn :=
  runtime_error "Failed to start recording (startRecording error)".

Definition not_recording_error : exn :=
  runtime_error "Please start recording before collecting eyelink data".

Definition drift_sequencing_error : exn :=
  runtime_error "Trying to do drift correction after recording has started".

Definition calibrate_sequencing_error : exn :=
  runtime_error "Trying to calibrate after recording has started".

Definition drift_block_start_error : exn :=
  runtime_error "Failed to perform drift correction (waitForBlockStart error)".

Definition filename_error : exn :=
  runtime_error "The Eyelink cannot handle filenames longer than 8 characters (plus .EDF extension)".

(** The eye [sample] and [wait_for_event] work with in [w]: the cached
    [eye_used], or what [set_eye_used] makes of the tracker's report. *)
Definition eye_in_use (w : world) : option Z :=
  match eye_used (self w) with
  | Some e => Some e
  | None =>
      let a := eyeAvailable (eyelink w) in
      if a =? right_eye then Some right_eye
      else if (a =? left_eye) || (a =? binocular) then Some left_eye
      else None
  end.

(** The gaze a sample carries for eye [e]. *)
Definition gaze_of (e : Z) (d : sample_data) : option coord :=
  if e =? right_eye then right_gaze d
  else if e =? left_eye then left_gaze d
  else None.

Definition is_recording (w : world) : bool := recording (self w).

(** A tracker whose next [n] answers to [startRecording] are failures. *)
Definition failing_tracker (n : nat) : tracker :=
  mkTracker None true right_eye 3 4 (repeat 1 n) [true] [] [] [] [] None.

(** A tracker that does not report block start. *)
Definition silent_tracker : tracker :=
  mkTracker None true right_eye 3 4 [] [false] [] [] [] [] None.

Definition recording_session : session :=
  mkSession true None (1024, 768) "default.edf" true 16.

(** Recording, right eye tracked, and a newest sample that carries the
    left eye only. *)
Definition left_only_world : world :=
  world_of recording_session
    (mkTracker None true right_eye 3 4 [] [] [Some (mkSample (Some (3, 4)) None)]
       [] [] [] None) [].

(** Recording, both eyes tracked, and a newest sample that carries both. *)
Definition binocular_world : world :=
  world_of recording_session
    (mkTracker None true binocular 3 4 [] []
       [Some (mkSample (Some (3, 4)) (Some (5, 6)))] [] [] [] None) [].

(** A method's return value as the Python value it is. *)
Definition returns_py {A} (py : A -> pyval) (c : M A) : M pyval :=
  a <- c ;; ret (py a).

Definition event_item (code t : Z) (start_pos end_pos : coord) : link_item :=
  mkItem code (mkFloatData t start_pos end_pos).

(** Recording with the right eye resolved and a link queue holding, in
    order: a saccade end, a sample (type 200), an empty poll, a fixation
    start, a fixation end, a blink start, a second fixation start. *)
Definition feed_world : world :=
  world_of (mkSession true (Some right_eye) (1024, 768) "default.edf" true 16)
    (mkTracker None true right_eye 3 4 [] [] [] [] []
       [event_item ENDSACC 10 (1, 2) (3, 4);
        event_item 200 11 (0, 0) (0, 0);
        event_item 0 0 (0, 0) (0, 0);
        event_item STARTFIX 12 (5, 6) (0, 0);
        event_item ENDFIX 13 (5, 6) (7, 8);
        event_item STARTBLINK 14 (0, 0) (0, 0);
        event_item STARTFIX 15 (9, 9) (0, 0)]
       None) [].

(** The world after the loop took [ev] off the queue, leaving [post]. *)
Definition after_event (w : world) (ev : link_item) (post : list link_item)
    : world :=
  mkWorld (self w) (with_link post (Some ev) (eyelink w)) (get_key_replies w)
    (eyelink_global w) (trace w).

(** The world before [__init__] ran: no tracker object yet. *)
Definition unconstructed_world : world :=
  mkWorld fresh_session idle_tracker [] false [].

(** The world right after a keyboard poll left [keys] to come. *)
Definition after_key_poll (w : world) (keys : list (option key)) : world :=
  mkWorld (self w) (eyelink w) keys (eyelink_global w) (trace w).

(** The world [fix_loop] ends in when it leaves the loop in [w]. *)
Definition after_success (w : world) : world :=
  mkWorld (set_recording false (self w)) (eyelink w) (get_key_replies w)
    (eyelink_global w)
    (E_print "libeyelink.fix_triggered_drift_correction(): success"
       :: E_applyDriftCorrect :: trace w).



(** A link sample carrying [c] for the right eye only. *)
Definition right_sample (c : coord) : sample_data := mkSample None (Some c).

(** Not recording, right eye tracked, block start reported, no key ever
    pressed in 100 polls, the calibration result good, and the given
    sequence of newest samples. *)
Definition drift_world (samples : list coord) : world :=
  world_of fresh_session
    (mkTracker None true right_eye 3 4 [] [true]
       (map (fun c => Some (right_sample c)) samples) [Gives 0] [] [] None)
    (repeat None 100).




(** In the convergence loop with two samples accepted, right eye
    resolved, and a newest sample 94 pixels to the right of the last
    accepted one. *)
Definition jump_world : world :=
  world_of (mkSession true (Some right_eye) (1024, 768) "default.edf" true 16)
    (mkTracker None true right_eye 3 4 [] [] [Some (right_sample (100, 5))]
       [] [] [] None) [].

(** The world an outcome ended in. *)
Definition outcome_world {A} (o : outcome A) : world :=
  match o with
  | Return _ w => w
  | Raise _ w => w
  | Pending w => w
  end.

Definition eye_error : exn :=
  runtime_error "Failed to determine which eye is being recorded".

Definition start_block_start_error : exn :=
  runtime_error "Failed to start recording (waitForBlockStart error)".

(** What [stop_recording] adds to the trace. *)
Definition stop_effects : list effect :=
  [E_msecDelay 500; E_setOfflineMode; E_endRealTimeMode].

(** What [close] adds to the trace after stopping, for data file [name]. *)
Definition close_effects (name : string) : list effect :=
  [E_msecDelay 100; E_close; E_print "libeyelink: closing eyelink";
   E_msecDelay 100; E_receiveDataFile name;
   E_print "libeyelink: transferring data file";
   E_msecDelay 100; E_closeDataFile;
   E_print "libeyelink: closing data file"].

(** The commands [prepare_drift_correction] sends for target [pos],
    newest first, up to the wait for block start. *)
Definition prepare_effects (pos : coord) : list effect :=
  [E_waitForBlockStart; E_msecDelay 50;
   E_sendCommand "start_drift_correction data = 0 0 1 0";
   E_sendCommand ("drift_correction_targets = " ++ fmt_d (fst pos) ++ " "
                    ++ fmt_d (snd pos));
   E_sendCommand "heuristic_filter = ON"].

(** A tracker in the middle of fixation-triggered drift correction whose
    newest sample is absent. *)
Definition blind_tracker : tracker :=
  mkTracker None true right_eye 3 4 [] [true] [None] [] [] [] None.

(** A tracker that reports an eye code outside 0, 1, 2. *)
Definition eyeless_tracker : tracker :=
  mkTracker None true (-1) 3 4 [] [] [Some (right_sample (1, 1)); None]
    [] [] [] None.

(** The key polls that leave the calibration state alone: a raised
    exception, no key, or a key other than return, q, c and v. *)
Definition neutral_poll (p : reply (option string)) : Prop :=
  match p with
  | Throws => True
  | Gives None => True
  | Gives (Some k) => k <> "return" /\ k <> "q" /\ k <> "c" /\ k <> "v"
  end.

(** [get_input_key] called once per poll. *)
Definition run_keys (polls : list (reply (option string)))
    (g : eyelink_graphics.graphics) : eyelink_graphics.graphics :=
  fold_left (fun g p => snd (eyelink_graphics.get_input_key p g)) polls g.

(** A colour component as the tracker sends it. *)
Definition is_byte (z : Z) : Prop := 0 <= z < 256.

Definition fresh_graphics : eyelink_graphics.graphics :=
  eyelink_graphics.init 384 idle_tracker.

(** A tracker that refuses the start command twice, then accepts it and
    reports block start. *)
Definition slow_tracker : tracker :=
  mkTracker None true right_eye 3 4 [1; 1; 0] [true] [] [] [] [] None.

Definition cancel_line : string :=
  "libeyelink.fix_triggered_drift_correction(): 'q' pressed".


Definition success_line : string :=
  "libeyelink.fix_triggered_drift_correction(): success".


(** A tracker of version 1, connected. *)
Definition old_tracker : tracker :=
  mkTracker None true right_eye 1 0 [] [] [] [] [] [] None.

(** A tracker that cannot be reached. *)
Definition unreachable_tracker : tracker :=
  mkTracker (Some "no link") false right_eye 3 4 [] [] [] [] [] [] None.

Definition pixel_coords_command (resolution : Z * Z) : effect :=
  E_sendCommand ("screen_pixel_coords =  0 0 " ++ fmt_d (fst resolution)
                   ++ " " ++ fmt_d (snd resolution)).

(** The file name passes the length check of [__init__]. *)
Definition name_fits (data_file : string) : Prop :=
  len (fst (splitext (list_ascii_of_string data_file))) <= 8
  /\ len (snd (splitext (list_ascii_of_string data_file))) <= 4.

Definition htarget_link_command : effect :=
  E_sendCommand "link_sample_data  = LEFT,RIGHT,GAZE,GAZERES,AREA,STATUS,HTARGET".

Definition htarget_file_command : effect :=
  E_sendCommand "file_sample_data  = LEFT,RIGHT,GAZE,AREA,GAZERES,STATUS,HTARGET".

Definition gazemap_command : effect :=
  E_sendCommand "scene_camera_gazemap = NO".



(** The entry the palette loop builds at index [j]. *)
Definition palette_entry (r g b : list Z) (j : nat) : Z :=
  eyelink_graphics.pack (nth j b 0) (nth j g 0) (nth j r 0).

(** What may enter the image buffer: an entry of the palette that the
    buffer's array type takes. *)
Definition from_palette (fits_long : Z -> bool) (pal : option (list Z))
    (v : Z) : Prop :=
  exists p, pal = Some p /\ In v p /\ fits_long v = true.

(** [len(s)] of a Python string. *)
Definition py_len (s : string) : Z := Z.of_nat (String.length s).

(** * Properties *)

(** ** Running the monad *)

Ltac run_prims :=
  unfold waitForBlockStart, getNewestSample, getCalibrationResult,
    doDriftCorrect, getFloatData, connected, send_command, log_var, log,
    bind, ret, raise, pending, try_except, get_self, get_eyelink, get_keys,
    get_global, upd_self, upd_eyelink, set_keys, set_global, emit;
  cbn [self eyelink get_key_replies eyelink_global trace].

(** ** The recording-start retry *)

(** With the counter at [i] and the next [102 - i] answers all failures,
    the loop raises after exactly those [102 - i] commands. *)
Lemma startRecording_loop_exhausts :
  forall (fails rest : list Z) (i : Z) (w : world),
    Forall (fun error => error <> 0) fails ->
    fails <> [] ->
    0 <= i ->
    i + len fails = MAX_TRY + 2 ->
    exists w',
      startRecording_loop (fails ++ rest) i w = Raise start_error w'
      /\ startRecording_calls (trace w')
         = (startRecording_calls (trace w) + List.length fails)%nat
      /\ startRecording_replies (eyelink w') = rest
      /\ self w' = self w.
Proof.
  induction fails as [|error fails IH]; intros rest i w Hall Hne Hi Hlen.
  - congruence.
  - inversion Hall as [|? ? Herr Hall']; subst.
    apply Z.eqb_neq in Herr.
    unfold len in Hlen; cbn [List.length] in Hlen.
    cbn [app startRecording_loop]. run_prims. rewrite Herr.
    destruct fails as [|error' fails'].
    + cbn [List.length] in Hlen.
      assert (Hi101 : (MAX_TRY <? i) = true) by (apply Z.ltb_lt; lia).
      rewrite Hi101. eexists; repeat split; cbn; try reflexivity.
      rewrite Nat.add_1_r; reflexivity.
    + assert (Hi100 : (MAX_TRY <? i) = false).
      { apply Z.ltb_ge. cbn [List.length] in Hlen. lia. }
      rewrite Hi100.
      match goal with
      | |- context [startRecording_loop _ _ ?w1] =>
          destruct (IH rest (i + 1) w1 Hall') as (w' & Hrun & Hcalls & Hrest & Hself)
      end.
      * discriminate.
      * lia.
      * unfold len. lia.
      * exists w'. rewrite Hrun. repeat split; try assumption.
        rewrite Hcalls. cbn. lia.
Qed.

(** With the counter at [i], at most [101 - i] failures and then a
    success, the loop returns. *)
Lemma startRecording_loop_succeeds :
  forall (fails rest : list Z) (i : Z) (w : world),
    Forall (fun error => error <> 0) fails ->
    0 <= i ->
    i + len fails <= MAX_TRY + 1 ->
    exists w',
      startRecording_loop (fails ++ 0 :: rest) i w = Return tt w'
      /\ startRecording_calls (trace w')
         = (startRecording_calls (trace w) + S (List.length fails))%nat
      /\ startRecording_replies (eyelink w') = rest
      /\ self w' = self w.
Proof.
  induction fails as [|error fails IH]; intros rest i w Hall Hi Hlen.
  - cbn [app startRecording_loop]. run_prims. cbn.
    eexists; split; [reflexivity|]. cbn. repeat split. lia.
  - inversion Hall as [|? ? Herr Hall']; subst.
    apply Z.eqb_neq in Herr.
    unfold len in Hlen; cbn [List.length] in Hlen.
    cbn [app startRecording_loop]. run_prims. rewrite Herr.
    assert (Hi100 : (MAX_TRY <? i) = false) by (apply Z.ltb_ge; lia).
    rewrite Hi100.
    match goal with
    | |- context [startRecording_loop _ _ ?w1] =>
        destruct (IH rest (i + 1) w1 Hall') as (w' & Hrun & Hcalls & Hrest & Hself)
    end.
    + lia.
    + unfold len; lia.
    + exists w'. rewrite Hrun. repeat split; try assumption.
      rewrite Hcalls. cbn. lia.
Qed.

(** C4. The retry loop of [start_recording] tests [i > MAX_TRY] before it
    increments [i], so against a tracker that refuses every time it sends
    102 start commands, not [MAX_TRY] = 100, before it raises; the flag
    [recording], set on entry, stays set. *)
Theorem start_recording_raises_after_102_attempts :
  forall (w : world) (fails rest : list Z),
    startRecording_replies (eyelink w) = (fails ++ rest)%list ->
    Forall (fun error => error <> 0) fails ->
    List.length fails = 102%nat ->
    exists w',
      start_recording w = Raise start_error w'
      /\ startRecording_calls (trace w')
         = (startRecording_calls (trace w) + 102)%nat
      /\ startRecording_replies (eyelink w') = rest
      /\ is_recording w' = true.
Proof.
  intros w fails rest Hrep Hall Hlen.
  unfold start_recording. run_prims. rewrite Hrep.
  match goal with
  | |- context [startRecording_loop _ _ ?w1] =>
      destruct (startRecording_loop_exhausts fails rest 0 w1 Hall)
        as (w' & Hrun & Hcalls & Hrest & Hself)
  end.
  - intros ->. discriminate.
  - lia.
  - unfold len, MAX_TRY. rewrite Hlen. reflexivity.
  - exists w'. rewrite Hrun.
    unfold is_recording. rewrite Hself, Hcalls, Hlen.
    repeat split; assumption.
Qed.

Lemma start_recording_raises_after_102_attempts_witness :
  exists w',
    start_recording (world_of fresh_session (failing_tracker 102) [])
      = Raise start_error w'
    /\ startRecording_calls (trace w') = 102%nat
    /\ startRecording_replies (eyelink w') = []
    /\ is_recording w' = true.
Proof.
  apply (start_recording_raises_after_102_attempts
           (world_of fresh_session (failing_tracker 102) [])
           (repeat 1 102) []).
  - reflexivity.
  - apply Forall_forall. intros x Hx. apply repeat_spec in Hx. lia.
  - reflexivity.
Defined.

(** The other half of the retry contract holds: a success at attempt
    [k <= 102] ends the loop without an error. *)
Lemma startRecording_loop_success_within_bound :
  forall (w : world) (fails rest : list Z),
    Forall (fun error => error <> 0) fails ->
    (List.length fails <= 101)%nat ->
    exists w',
      startRecording_loop (fails ++ 0 :: rest) 0 w = Return tt w'
      /\ startRecording_calls (trace w')
         = (startRecording_calls (trace w) + S (List.length fails))%nat.
Proof.
  intros w fails rest Hall Hlen.
  destruct (startRecording_loop_succeeds fails rest 0 w Hall)
    as (w' & Hrun & Hcalls & _); [lia | unfold len, MAX_TRY; lia |].
  exists w'; split; assumption.
Qed.

(** ** The recording flag around fixation-triggered drift correction *)

(** C1. When the tracker does not report block start,
    [prepare_drift_correction] raises out of
    [fix_triggered_drift_correction] after the flag was set: the call ends
    with [recording] still true. *)
Theorem fix_triggered_block_start_failure_keeps_recording :
  forall (pos : option coord) (min_samples max_dev reset_threshold : Z)
         (w : world) (rest : list bool),
    is_recording w = false ->
    waitForBlockStart_replies (eyelink w) = false :: rest ->
    exists w',
      fix_triggered_drift_correction pos min_samples max_dev reset_threshold w
        = Raise drift_block_start_error w'
      /\ is_recording w' = true.
Proof.
  intros pos ms md rt w rest Hrec Hblock.
  unfold is_recording in *.
  unfold fix_triggered_drift_correction, prepare_drift_correction.
  run_prims. rewrite Hrec. cbn. rewrite Hblock. cbn.
  eexists; split; reflexivity.
Qed.

Lemma fix_triggered_block_start_failure_keeps_recording_witness :
  exists w',
    fix_triggered_drift_correction None 30 60 10
      (world_of fresh_session silent_tracker []) = Raise drift_block_start_error w'
    /\ is_recording w' = true.
Proof.
  apply (fix_triggered_block_start_failure_keeps_recording None 30 60 10
           (world_of fresh_session silent_tracker []) []);
    reflexivity.
Defined.

(** The two ways [fix_loop] hands back a value both clear the flag. *)
Lemma fix_loop_return_clears_recording :
  forall (keys : list (option key)) (pos : coord) (ms rt : Z)
         (lx ly : list Z) (w : world) (b : bool) (w' : world),
    fix_loop keys pos ms rt lx ly w = Return b w' ->
    is_recording w' = false.
Proof.
  induction keys as [|k keys IH]; intros pos ms rt lx ly w b w';
    cbn [fix_loop]; destruct (len lx <? ms).
  - discriminate.
  - run_prims. intros H; inversion H; reflexivity.
  - destruct k as [k|].
    + run_prims. intros H; inversion H; reflexivity.
    + unfold bind at 1. cbn [set_keys].
      unfold bind at 1. destruct (sample _) as [xy w1|e w1|w1];
        try discriminate.
      destruct (collect rt lx ly (fst xy) (snd xy)) as [lx' ly'].
      destruct (len lx' =? ms); [|apply IH].
      unfold bind at 1. cbn [emit].
      unfold bind at 1.
      destruct (try_except _ _ _) as [[[result lx2] ly2] w2|e w2|w2];
        try discriminate.
      destruct (negb (result =? 0)); [|apply IH].
      unfold bind at 1. cbn [emit]. apply IH.
  - run_prims. intros H; inversion H; reflexivity.
Qed.

(** ** Operator-triggered drift correction *)

(** C6. Not recording and connected, operator-triggered
    [drift_correction] returns [True] when [doDriftCorrect] gives a code
    other than 27, [False] when it gives 27, and [False] when it raises;
    the exception is swallowed and each case prints its line first. *)
Theorem drift_correction_operator_triggered :
  forall (pos : option coord) (w : world) (r : reply Z) (rest : list (reply Z)),
    is_recording w = false ->
    isConnected (eyelink w) = true ->
    doDriftCorrect_replies (eyelink w) = r :: rest ->
    exists w',
      drift_correction pos false w
        = Return (match r with
                  | Gives error => negb (error =? 27)
                  | Throws => false
                  end) w'
      /\ hd_error (trace w')
         = Some (E_print
                   match r with
                   | Gives error =>
                       if error =? 27
                       then "libeyelink.drift_correction(): escape pressed"
                       else "libeyelink.drift_correction(): success"
                   | Throws => "libeyelink.drift_correction(): try again"
                   end)
      /\ doDriftCorrect_replies (eyelink w') = rest
      /\ self w' = self w.
Proof.
  intros pos w r rest Hrec Hconn Hrep.
  unfold is_recording in Hrec.
  unfold drift_correction. run_prims.
  rewrite Hrec. cbn. rewrite Hconn. cbn. rewrite Hrep. cbn.
  destruct r as [error|]; cbn.
  - destruct (error =? 27); cbn; eexists; repeat split.
  - eexists; repeat split.
Qed.

Lemma drift_correction_operator_triggered_witness :
  exists w',
    drift_correction None false
      (world_of fresh_session
         (mkTracker None true right_eye 3 4 [] [] [] [] [Throws] [] None) [])
      = Return false w'
    /\ hd_error (trace w')
       = Some (E_print "libeyelink.drift_correction(): try again")
    /\ doDriftCorrect_replies (eyelink w') = []
    /\ self w' = fresh_session.
Proof.
  apply (drift_correction_operator_triggered None
           (world_of fresh_session
              (mkTracker None true right_eye 3 4 [] [] [] [] [Throws] [] None) [])
           Throws []);
    reflexivity.
Defined.

(** ** [sample] *)

Lemma eye_in_use_cases :
  forall (w : world) (e : Z),
    eye_in_use w = Some e ->
    eye_used (self w) = Some e
    \/ (eye_used (self w) = None
        /\ ((eyeAvailable (eyelink w) =? right_eye) = true /\ e = right_eye
            \/ (eyeAvailable (eyelink w) =? right_eye) = false
               /\ ((eyeAvailable (eyelink w) =? left_eye)
                   || (eyeAvailable (eyelink w) =? binocular)) = true
               /\ e = left_eye)).
Proof.
  intros w e. unfold eye_in_use.
  destruct (eye_used (self w)) as [e0|]; [intros H; left; exact H|].
  intros H. right. split; [reflexivity|].
  destruct (eyeAvailable (eyelink w) =? right_eye).
  - left. inversion H. auto.
  - right. destruct (_ || _); [inversion H; auto | discriminate].
Qed.

(** The lazy eye resolution that opens [sample] and [wait_for_event]. *)
Lemma resolve_eye_ok :
  forall (w : world) (e : Z),
    eye_in_use w = Some e ->
    exists w1,
      (match eye_used (self w) with
       | None => set_eye_used
       | Some _ => ret tt
       end) w = Return tt w1
      /\ eye_used (self w1) = Some e
      /\ recording (self w1) = recording (self w)
      /\ eyelink w1 = eyelink w
      /\ get_key_replies w1 = get_key_replies w.
Proof.
  intros w e Heye.
  destruct (eye_in_use_cases w e Heye) as [Hset|[Hnone Hres]].
  - rewrite Hset. exists w. repeat split. exact Hset.
  - rewrite Hnone. unfold set_eye_used. run_prims.
    destruct Hres as [[Hr ->]|(Hr & Hl & ->)]; rewrite Hr; [|rewrite Hl];
      eexists; split; try reflexivity; cbn; repeat split.
    apply Z.eqb_eq in Hr. rewrite Hr. reflexivity.
Qed.

Lemma resolve_eye_fails :
  forall (w : world),
    eye_in_use w = None ->
    exists e w1,
      (match eye_used (self w) with
       | None => set_eye_used
       | Some _ => ret tt
       end) w = Raise e w1.
Proof.
  intros w. unfold eye_in_use.
  destruct (eye_used (self w)) as [e0|]; [discriminate|].
  unfold set_eye_used. run_prims.
  destruct (eyeAvailable (eyelink w) =? right_eye); [discriminate|].
  destruct (_ || _); [discriminate|].
  intros _. eexists; eexists; reflexivity.
Qed.

(** What [sample] does while recording, by the eye in use and the newest
    sample. *)
Lemma sample_recording :
  forall (w : world) (e : Z) (smp : option sample_data)
         (rest : list (option sample_data)),
    is_recording w = true ->
    eye_in_use w = Some e ->
    getNewestSample_replies (eyelink w) = smp :: rest ->
    exists w',
      sample w
        = match smp with
          | Some d =>
              match gaze_of e d with
              | Some g => Return g w'
              | None => Raise (UnboundLocalError "gaze") w'
              end
          | None => Raise (UnboundLocalError "gaze") w'
          end
      /\ is_recording w' = true
      /\ eye_used (self w') = Some e
      /\ getNewestSample_replies (eyelink w') = rest
      /\ get_key_replies w' = get_key_replies w
      /\ getCalibrationResult_replies (eyelink w')
         = getCalibrationResult_replies (eyelink w).
Proof.
  intros w e smp rest Hrec Heye Hrep.
  unfold is_recording in *.
  destruct (resolve_eye_ok w e Heye) as (w1 & Hres & He1 & Hrec1 & Hlink1 & Hkeys1).
  unfold sample. unfold bind at 1. unfold get_self at 1.
  rewrite Hrec. cbn [negb].
  unfold bind at 1. rewrite Hres.
  unfold getNewestSample. run_prims.
  rewrite Hlink1, Hrep. cbn.
  assert (Hgaze : forall d,
             (if eye_is (self w1) right_eye && isRightSample d then right_gaze d
              else if eye_is (self w1) left_eye && isLeftSample d
                   then left_gaze d
                   else None) = gaze_of e d).
  { intros d. unfold eye_is, gaze_of, isRightSample, isLeftSample.
    rewrite He1.
    destruct (Z.eqb_spec e right_eye) as [->|_]; cbn [andb].
    - destruct (right_gaze d); reflexivity.
    - destruct (e =? left_eye); cbn [andb]; [|reflexivity].
      destruct (left_gaze d); reflexivity. }
  eexists; split.
  - destruct smp as [d|]; [rewrite Hgaze; destruct (gaze_of e d)|];
      reflexivity.
  - cbn. rewrite Hrec1, Hlink1. auto.
Qed.

Lemma sample_not_recording :
  forall (w : world),
    is_recording w = false -> sample w = Raise not_recording_error w.
Proof.
  intros w Hrec. unfold is_recording in Hrec.
  unfold sample. run_prims. rewrite Hrec. reflexivity.
Qed.

(** Every value [sample] returns is the gaze the newest sample carries
    for the eye in use. *)
Lemma sample_return_inv :
  forall (w : world) (g : coord) (w' : world),
    sample w = Return g w' ->
    exists (e : Z) (d : sample_data) (rest : list (option sample_data)),
      is_recording w = true
      /\ eye_in_use w = Some e
      /\ getNewestSample_replies (eyelink w) = Some d :: rest
      /\ gaze_of e d = Some g.
Proof.
  intros w g w' Hret.
  destruct (is_recording w) eqn:Hrec;
    [|rewrite (sample_not_recording w Hrec) in Hret; discriminate].
  destruct (eye_in_use w) as [e|] eqn:Heye.
  - destruct (getNewestSample_replies (eyelink w)) as [|smp rest] eqn:Hrep.
    + exfalso.
      destruct (resolve_eye_ok w e Heye) as (w1 & Hres & _ & _ & Hlink1 & _).
      revert Hret. unfold sample. unfold bind at 1. unfold get_self at 1.
      unfold is_recording in Hrec. rewrite Hrec. cbn [negb].
      unfold bind at 1. rewrite Hres.
      unfold getNewestSample. run_prims. rewrite Hlink1, Hrep. discriminate.
    + destruct (sample_recording w e smp rest Hrec Heye Hrep)
        as (w2 & Hrun & _).
      rewrite Hrun in Hret.
      destruct smp as [d|]; [|discriminate].
      destruct (gaze_of e d) as [g0|] eqn:Hg; [|discriminate].
      inversion Hret; subst. exists e, d, rest. auto.
  - exfalso.
    destruct (resolve_eye_fails w Heye) as (e & w1 & Hres).
    revert Hret. unfold sample. unfold bind at 1. unfold get_self at 1.
    unfold is_recording in Hrec. rewrite Hrec. cbn [negb].
    unfold bind at 1. rewrite Hres. discriminate.
Qed.

(** C9. While recording, [sample] does keep to the eye in use: a
    returned coordinate is the one the newest sample carries for that
    eye.  But when the newest sample is absent or lacks that eye it
    does not report "no new sample": the local [gaze] was never bound
    and the call ends with an [UnboundLocalError], having taken the
    sample off the tracker. *)
Theorem sample_never_returns_other_eye :
  forall (w : world),
    is_recording w = true ->
    (forall (g : coord) (w' : world),
        sample w = Return g w' ->
        exists (e : Z) (d : sample_data) (rest : list (option sample_data)),
          eye_in_use w = Some e
          /\ getNewestSample_replies (eyelink w) = Some d :: rest
          /\ gaze_of e d = Some g)
    /\ (forall (e : Z) (smp : option sample_data)
               (rest : list (option sample_data)),
           eye_in_use w = Some e ->
           getNewestSample_replies (eyelink w) = smp :: rest ->
           (smp = None \/ exists d, smp = Some d /\ gaze_of e d = None) ->
           exists w',
             sample w = Raise (UnboundLocalError "gaze") w'
             /\ is_recording w' = true
             /\ eye_used (self w') = Some e
             /\ getNewestSample_replies (eyelink w') = rest).
Proof.
  intros w Hrec. split.
  - intros g w' Hret.
    destruct (sample_return_inv w g w' Hret) as (e & d & rest & _ & H).
    exists e, d, rest. exact H.
  - intros e smp rest Heye Hrep Habs.
    destruct (sample_recording w e smp rest Hrec Heye Hrep)
      as (w' & Hrun & Hrec' & He' & Hrest & _).
    exists w'. repeat split; try assumption.
    rewrite Hrun.
    destruct Habs as [->|(d & -> & Hg)]; [|rewrite Hg]; reflexivity.
Qed.

Lemma sample_never_returns_other_eye_witness :
  exists w',
    sample left_only_world = Raise (UnboundLocalError "gaze") w'
    /\ is_recording w' = true
    /\ eye_used (self w') = Some right_eye
    /\ getNewestSample_replies (eyelink w') = [].
Proof.
  apply (proj2 (sample_never_returns_other_eye left_only_world eq_refl)
           right_eye (Some (mkSample (Some (3, 4)) None)) []).
  - reflexivity.
  - reflexivity.
  - right. eexists; split; reflexivity.
Defined.

(** ** Sequencing guards *)

(** C7. With [recording] set, [calibrate], [drift_correction] (either
    variant) and [fix_triggered_drift_correction] raise their sequencing
    error and change nothing, and [sample] returns the gaze the newest
    sample carries for the eye in use; with [recording] clear, [sample]
    and [wait_for_event] raise and change nothing. *)
Theorem sequencing_guards :
  forall (w : world),
    (is_recording w = true ->
     (forall beep target_size,
         calibrate beep target_size w = Raise calibrate_sequencing_error w)
     /\ (forall pos fix_triggered,
           drift_correction pos fix_triggered w = Raise drift_sequencing_error w)
     /\ (forall pos min_samples max_dev reset_threshold,
           fix_triggered_drift_correction pos min_samples max_dev
             reset_threshold w = Raise drift_sequencing_error w)
     /\ (forall e d rest g,
           eye_in_use w = Some e ->
           getNewestSample_replies (eyelink w) = Some d :: rest ->
           gaze_of e d = Some g ->
           exists w',
             sample w = Return g w'
             /\ is_recording w' = true
             /\ eye_used (self w') = Some e
             /\ getNewestSample_replies (eyelink w') = rest))
    /\ (is_recording w = false ->
        sample w = Raise not_recording_error w
        /\ forall event, wait_for_event event w = Raise not_recording_error w).
Proof.
  intros w. split; intros Hrec.
  - repeat split.
    + intros. unfold calibrate. run_prims.
      unfold is_recording in Hrec. rewrite Hrec. reflexivity.
    + intros. unfold drift_correction. run_prims.
      unfold is_recording in Hrec. rewrite Hrec. reflexivity.
    + intros. unfold fix_triggered_drift_correction. run_prims.
      unfold is_recording in Hrec. rewrite Hrec. reflexivity.
    + intros e d rest g Heye Hrep Hg.
      destruct (sample_recording w e (Some d) rest Hrec Heye Hrep)
        as (w' & Hrun & Hrec' & He' & Hrest & _).
      rewrite Hg in Hrun. exists w'. auto.
  - split; [apply sample_not_recording; exact Hrec|].
    intros event. unfold wait_for_event. run_prims.
    unfold is_recording in Hrec. rewrite Hrec. reflexivity.
Qed.

Lemma sequencing_guards_witness :
  (calibrate true 16 binocular_world
     = Raise calibrate_sequencing_error binocular_world
   /\ drift_correction None true binocular_world
      = Raise drift_sequencing_error binocular_world
   /\ exists w',
       sample binocular_world = Return (3, 4) w'
       /\ is_recording w' = true
       /\ eye_used (self w') = Some left_eye
       /\ getNewestSample_replies (eyelink w') = [])
  /\ (sample (world_of fresh_session idle_tracker [])
        = Raise not_recording_error (world_of fresh_session idle_tracker [])
      /\ wait_for_event STARTFIX (world_of fresh_session idle_tracker [])
         = Raise not_recording_error (world_of fresh_session idle_tracker [])).
Proof.
  split.
  - destruct (proj1 (sequencing_guards binocular_world) eq_refl)
      as (Hcal & Hdrift & _ & Hsample).
    split; [apply Hcal|]. split; [apply Hdrift|].
    apply (Hsample left_eye (mkSample (Some (3, 4)) (Some (5, 6))) []);
      reflexivity.
  - destruct (proj2 (sequencing_guards (world_of fresh_session idle_tracker []))
                eq_refl) as (Hsample & Hwait).
    split; [exact Hsample | apply Hwait].
Defined.

(** ** The dummy tracker *)

(** C10. The dummy's [wait_for_fixation_end], [wait_for_blink_start] and
    [wait_for_blink_end] do not return what the real methods return:
    whatever the real fixation-end wait returns is a triple (time, start,
    end) and the dummy returns a pair; whatever the real blink waits
    return is a bare number and the dummy returns a pair. *)
Theorem dummy_wait_results_differ_in_shape :
  forall (e : libeyelink_dummy.env) (w : world) (v : pyval) (w' : world),
    (returns_py py_time_start_end wait_for_fixation_end w = Return v w' ->
     arity v = Some 3%nat
     /\ arity (fst (libeyelink_dummy.wait_for_fixation_end e)) = Some 2%nat)
    /\ (returns_py PyNum wait_for_blink_start w = Return v w' ->
        shape_of v = ShNum
        /\ shape_of (fst (libeyelink_dummy.wait_for_blink_start e))
           = ShTuple [ShNum; ShTuple [ShNum; ShNum]])
    /\ (returns_py PyNum wait_for_blink_end w = Return v w' ->
        shape_of v = ShNum
        /\ shape_of (fst (libeyelink_dummy.wait_for_blink_end e))
           = ShTuple [ShNum; ShTuple [ShNum; ShNum]]).
Proof.
  intros e w v w'. unfold returns_py, bind, ret. repeat split.
  - destruct (wait_for_fixation_end w); inversion H; reflexivity.
  - destruct (wait_for_blink_start w); inversion H; reflexivity.
  - destruct (wait_for_blink_end w); inversion H; reflexivity.
Qed.

(** Where the dummy does match: [sample] is the origin, both drift
    corrections return [True] after 200 ms, and the saccade and
    fixation-start waits have the real methods' shapes. *)
Lemma dummy_matching_operations :
  forall (e : libeyelink_dummy.env),
    fst (libeyelink_dummy.sample e) = py_coord (0, 0)
    /\ (forall pos ft,
          libeyelink_dummy.drift_correction pos ft e
          = (PyBool true,
             libeyelink_dummy.mkEnv (libeyelink_dummy.ticks e + 200)
               (libeyelink_dummy.stdout e)))
    /\ (forall pos ms md rt,
          fst (libeyelink_dummy.fix_triggered_drift_correction pos ms md rt e)
          = PyBool true)
    /\ (forall r : Z * coord,
          shape_of (fst (libeyelink_dummy.wait_for_saccade_start e))
          = shape_of (py_time_start r))
    /\ (forall r : Z * coord * coord,
          shape_of (fst (libeyelink_dummy.wait_for_saccade_end e))
          = shape_of (py_time_start_end r))
    /\ (forall r : Z * coord,
          shape_of (fst (libeyelink_dummy.wait_for_fixation_start e))
          = shape_of (py_time_start r)).
Proof.
  intros e. repeat split.
Qed.

Lemma dummy_wait_results_differ_in_shape_witness :
  returns_py py_time_start_end wait_for_fixation_end feed_world
    = Return (py_time_start_end (13, (5, 6), (7, 8)))
        (after_event feed_world (event_item ENDFIX 13 (5, 6) (7, 8))
           [event_item STARTBLINK 14 (0, 0) (0, 0);
            event_item STARTFIX 15 (9, 9) (0, 0)])
  /\ arity (py_time_start_end (13, (5, 6), (7, 8))) = Some 3%nat
  /\ arity (fst (libeyelink_dummy.wait_for_fixation_end
                   (libeyelink_dummy.mkEnv 0 [])))
     = Some 2%nat.
Proof.
  split; [reflexivity|].
  apply (proj1 (dummy_wait_results_differ_in_shape
                  (libeyelink_dummy.mkEnv 0 []) feed_world
                  (py_time_start_end (13, (5, 6), (7, 8)))
                  (after_event feed_world (event_item ENDFIX 13 (5, 6) (7, 8))
                     [event_item STARTBLINK 14 (0, 0) (0, 0);
                      event_item STARTFIX 15 (9, 9) (0, 0)]))).
  reflexivity.
Defined.

(** ** Waiting for events *)

Lemma getNextData_until_eq :
  forall (event : Z) (queue : list link_item) (d : Z),
    getNextData_until event queue d
    = if d =? event then ret tt
      else match queue with
           | [] => pending
           | it :: rest =>
               upd_eyelink (with_link rest (Some it)) ;;
               getNextData_until event rest (item_type it)
           end.
Proof. intros event [|it rest] d; reflexivity. Qed.

Lemma getNextData_until_first_match :
  forall (event : Z) (pre : list link_item) (ev : link_item)
         (post : list link_item) (d : Z) (w : world),
    d <> event ->
    Forall (fun it => item_type it <> event) pre ->
    item_type ev = event ->
    getNextData_until event (pre ++ ev :: post) d w
    = Return tt (after_event w ev post).
Proof.
  induction pre as [|it pre IH]; intros ev post d w Hd Hpre Hev.
  - rewrite getNextData_until_eq.
    apply Z.eqb_neq in Hd. rewrite Hd. cbn [app].
    unfold bind, upd_eyelink. rewrite getNextData_until_eq.
    apply Z.eqb_eq in Hev. rewrite Hev. reflexivity.
  - inversion Hpre as [|? ? Hit Hpre']; subst.
    rewrite getNextData_until_eq.
    apply Z.eqb_neq in Hd. rewrite Hd. cbn [app].
    unfold bind at 1, upd_eyelink at 1.
    rewrite (IH ev post (item_type it) _ Hit Hpre' eq_refl).
    reflexivity.
Qed.

(** The six convenience waits are [wait_for_event] followed by a
    projection of the event it returned. *)
Lemma wait_for_projections :
  wait_for_saccade_start
  = (d <- wait_for_event STARTSACC ;;
     project (fun d => (getTime d, getStartGaze d)) d)
  /\ wait_for_saccade_end
     = (d <- wait_for_event ENDSACC ;;
        project (fun d => (getTime d, getStartGaze d, getEndGaze d)) d)
  /\ wait_for_fixation_start
     = (d <- wait_for_event STARTFIX ;;
        project (fun d => (getTime d, getStartGaze d)) d)
  /\ wait_for_fixation_end
     = (d <- wait_for_event ENDFIX ;;
        project (fun d => (getTime d, getStartGaze d, getEndGaze d)) d)
  /\ wait_for_blink_start = (d <- wait_for_event STARTBLINK ;; project getTime d)
  /\ wait_for_blink_end = (d <- wait_for_event ENDBLINK ;; project getTime d).
Proof. repeat split. Qed.

(** C8. While recording with a resolvable eye, for an event code other
    than 0 and a link queue whose first item of that type is [ev],
    [wait_for_event] drops everything before [ev], returns the data of
    [ev] and leaves what follows [ev] in the queue; each of the six waits
    then returns its projection of that same [ev], [wait_for_fixation_start]
    the pair (time, start gaze). *)
Theorem wait_for_event_first_match :
  forall (event : Z) (w : world) (e : Z) (pre : list link_item)
         (ev : link_item) (post : list link_item),
    event <> 0 ->
    is_recording w = true ->
    eye_in_use w = Some e ->
    link_queue (eyelink w) = (pre ++ ev :: post)%list ->
    Forall (fun it => item_type it <> event) pre ->
    item_type ev = event ->
    exists w',
      wait_for_event event w = Return (Some (item_data ev)) w'
      /\ link_queue (eyelink w') = post
      /\ is_recording w' = true
      /\ (event = STARTSACC ->
          wait_for_saccade_start w
          = Return (getTime (item_data ev), getStartGaze (item_data ev)) w')
      /\ (event = ENDSACC ->
          wait_for_saccade_end w
          = Return (getTime (item_data ev), getStartGaze (item_data ev),
                    getEndGaze (item_data ev)) w')
      /\ (event = STARTFIX ->
          wait_for_fixation_start w
          = Return (getTime (item_data ev), getStartGaze (item_data ev)) w')
      /\ (event = ENDFIX ->
          wait_for_fixation_end w
          = Return (getTime (item_data ev), getStartGaze (item_data ev),
                    getEndGaze (item_data ev)) w')
      /\ (event = STARTBLINK ->
          wait_for_blink_start w = Return (getTime (item_data ev)) w')
      /\ (event = ENDBLINK ->
          wait_for_blink_end w = Return (getTime (item_data ev)) w').
Proof.
  intros event w e pre ev post Hev0 Hrec Heye Hqueue Hpre Hev.
  destruct (resolve_eye_ok w e Heye)
    as (w1 & Hres & He1 & Hrec1 & Hlink1 & Hkeys1).
  assert (Hrun : wait_for_event event w
                 = Return (Some (item_data ev)) (after_event w1 ev post)).
  { unfold wait_for_event. unfold bind at 1. unfold get_self at 1.
    unfold is_recording in Hrec. rewrite Hrec. cbn [negb].
    unfold bind at 1. rewrite Hres.
    unfold bind at 1. unfold get_eyelink at 1.
    rewrite Hlink1, Hqueue.
    unfold bind at 1.
    rewrite (getNextData_until_first_match event pre ev post 0 w1);
      [reflexivity | congruence | assumption | assumption]. }
  exists (after_event w1 ev post).
  split; [exact Hrun|]. split; [reflexivity|].
  split; [unfold is_recording in *; cbn; congruence|].
  repeat split; intros ->;
    [unfold wait_for_saccade_start | unfold wait_for_saccade_end
    | unfold wait_for_fixation_start | unfold wait_for_fixation_end
    | unfold wait_for_blink_start | unfold wait_for_blink_end];
    unfold bind at 1; rewrite Hrun; reflexivity.
Qed.

Lemma wait_for_event_first_match_witness :
  exists w',
    wait_for_event STARTFIX feed_world
      = Return (Some (mkFloatData 12 (5, 6) (0, 0))) w'
    /\ link_queue (eyelink w')
       = [event_item ENDFIX 13 (5, 6) (7, 8);
          event_item STARTBLINK 14 (0, 0) (0, 0);
          event_item STARTFIX 15 (9, 9) (0, 0)]
    /\ wait_for_fixation_start feed_world = Return (12, (5, 6)) w'.
Proof.
  destruct (wait_for_event_first_match STARTFIX feed_world right_eye
              [event_item ENDSACC 10 (1, 2) (3, 4);
               event_item 200 11 (0, 0) (0, 0);
               event_item 0 0 (0, 0) (0, 0)]
              (event_item STARTFIX 12 (5, 6) (0, 0))
              [event_item ENDFIX 13 (5, 6) (7, 8);
               event_item STARTBLINK 14 (0, 0) (0, 0);
               event_item STARTFIX 15 (9, 9) (0, 0)])
    as (w' & Hrun & Hq & _ & _ & _ & Hfix & _).
  - discriminate.
  - reflexivity.
  - reflexivity.
  - reflexivity.
  - repeat constructor; discriminate.
  - reflexivity.
  - exists w'. split; [exact Hrun|]. split; [exact Hq|]. apply Hfix; reflexivity.
Defined.

(** ** The data-file name *)

Lemma splitext_app :
  forall (p : list ascii),
    (fst (splitext p) ++ snd (splitext p))%list = p.
Proof.
  intros p. unfold splitext.
  destruct (rfind "/" p <? rfind "." p); [|apply app_nil_r].
  destruct (existsb _ _); [apply firstn_skipn | apply app_nil_r].
Qed.

(** C5. [__init__] checks the file name first.  With [stem] and [ext]
    what [os.path.splitext] makes of the name (so [ext] begins with its
    dot): when [len(stem) <= 8] and [len(ext) <= 4] the file-name error is
    not raised, and on a connected tracker of version 2 or later the
    construction completes, not recording; when [len(stem) > 8] or
    [len(ext) > 4] the file-name error is raised with nothing sent and
    nothing set. *)
Theorem init_validates_filename :
  forall (resolution : Z * Z) (data_file : string)
         (saccade_velocity_threshold saccade_acceleration_threshold : Z)
         (w : world),
    let stem := fst (splitext (list_ascii_of_string data_file)) in
    let ext := snd (splitext (list_ascii_of_string data_file)) in
    (len stem <= 8 /\ len ext <= 4 ->
     (forall w',
         libeyelink_init resolution data_file saccade_velocity_threshold
           saccade_acceleration_threshold w <> Raise filename_error w')
     /\ (isConnected (eyelink w) = true ->
         2 <= getTrackerVersion (eyelink w) ->
         eyelink_global w = true \/ EyeLink_error (eyelink w) = None ->
         exists w',
           libeyelink_init resolution data_file saccade_velocity_threshold
             saccade_acceleration_threshold w = Return tt w'
           /\ self w' = mkSession false None resolution data_file true 16))
    /\ (8 < len stem \/ 4 < len ext ->
        libeyelink_init resolution data_file saccade_velocity_threshold
          saccade_acceleration_threshold w = Raise filename_error w).
Proof.
  intros resolution data_file svt sat w stem ext.
  unfold libeyelink_init.
  destruct (splitext (list_ascii_of_string data_file)) as [stem0 ext0] eqn:Hsplit.
  subst stem ext. cbn [fst snd].
  split.
  - intros [Hstem Hext].
    assert (Hcheck : (8 <? len stem0) || (4 <? len ext0) = false).
    { apply orb_false_iff. split; apply Z.ltb_ge; assumption. }
    rewrite Hcheck. run_prims. split.
    + intros w'.
      unfold filename_error.
      destruct (eyelink_global w); cbn;
        [|destruct (EyeLink_error (eyelink w))];
        cbn; try (intros Hx; discriminate Hx);
        (destruct (2 <=? getTrackerVersion (eyelink w)); cbn;
         [|intros Hx; discriminate Hx]);
        destruct (getTrackerVersion (eyelink w) =? 2); cbn;
        destruct (4 <=? _); cbn;
        destruct (isConnected (eyelink w)); cbn; intros Hx; discriminate Hx.
    + intros Hconn Hver Hglobal.
      apply Z.leb_le in Hver.
      assert (Hopen :
                eyelink_global w = true
                \/ (eyelink_global w = false /\ EyeLink_error (eyelink w) = None)).
      { destruct (eyelink_global w); [left; reflexivity|].
        right. destruct Hglobal as [Hg|Hg]; [discriminate|auto]. }
      destruct Hopen as [Hg|[Hg He]]; rewrite Hg; cbn; [|rewrite He]; cbn;
        rewrite Hver; cbn;
        destruct (getTrackerVersion (eyelink w) =? 2); cbn;
        destruct (4 <=? _); cbn; rewrite Hconn; cbn;
        eexists; split; reflexivity.
  - intros Hlong.
    assert (Hcheck : (8 <? len stem0) || (4 <? len ext0) = true).
    { apply orb_true_iff.
      destruct Hlong; [left | right]; apply Z.ltb_lt; assumption. }
    rewrite Hcheck. reflexivity.
Qed.

Lemma init_validates_filename_witness :
  (exists w',
      libeyelink_init (1024, 768) "abcdefgh.edf" 35 9500 unconstructed_world
        = Return tt w'
      /\ self w' = mkSession false None (1024, 768) "abcdefgh.edf" true 16)
  /\ libeyelink_init (1024, 768) "abcdefghi.edf" 35 9500 unconstructed_world
     = Raise filename_error unconstructed_world
  /\ libeyelink_init (1024, 768) "abcdefgh.edfx" 35 9500 unconstructed_world
     = Raise filename_error unconstructed_world.
Proof.
  split; [|split].
  - apply (proj1 (init_validates_filename (1024, 768) "abcdefgh.edf" 35 9500
                    unconstructed_world)).
    + split; vm_compute; discriminate.
    + reflexivity.
    + vm_compute; discriminate.
    + right; reflexivity.
  - apply (proj2 (init_validates_filename (1024, 768) "abcdefghi.edf" 35 9500
                    unconstructed_world)).
    left. vm_compute. reflexivity.
  - apply (proj2 (init_validates_filename (1024, 768) "abcdefgh.edfx" 35 9500
                    unconstructed_world)).
    right. vm_compute. reflexivity.
Defined.

(** ** The convergence loop *)


Lemma len_app1 : forall (l : list Z) (x : Z), len (l ++ [x]) = len l + 1.
Proof.
  intros l x. unfold len. rewrite length_app. cbn [List.length]. lia.
Qed.

Lemma len_nonneg : forall {A} (l : list A), 0 <= len l.
Proof. intros A l. unfold len. lia. Qed.

(** A sample too far from the last accepted one empties the buffer. *)
Lemma collect_reset :
  forall (rt : Z) (lx ly : list Z) (x y : Z),
    0 <= rt ->
    0 < len lx ->
    rt < Z.abs (x - last_of lx) \/ rt < Z.abs (y - last_of ly) ->
    collect rt lx ly x y = ([], []).
Proof.
  intros rt lx ly x y Hrt Hlen Hdev. unfold collect.
  assert (Hne : (len lx =? 0) || negb (x =? last_of lx)
                || negb (y =? last_of ly) = true).
  { apply orb_true_iff.
    destruct (Z.eqb_spec x (last_of lx)) as [Hx|Hx];
      [|left; apply orb_true_iff; right; reflexivity].
    destruct (Z.eqb_spec y (last_of ly)) as [Hy|Hy]; [|right; reflexivity].
    exfalso. subst. rewrite !Z.sub_diag in Hdev. cbn in Hdev. lia. }
  rewrite Hne.
  assert (Hin : (0 <? len lx)
                && ((rt <? Z.abs (x - last_of lx))
                    || (rt <? Z.abs (y - last_of ly))) = true).
  { apply andb_true_iff. split; [apply Z.ltb_lt; exact Hlen|].
    apply orb_true_iff. destruct Hdev; [left|right]; apply Z.ltb_lt; assumption. }
  rewrite Hin. reflexivity.
Qed.

(** A sample equal to the last accepted one leaves the buffer as it is. *)
Lemma collect_skip :
  forall (rt : Z) (lx ly : list Z),
    0 < len lx ->
    collect rt lx ly (last_of lx) (last_of ly) = (lx, ly).
Proof.
  intros rt lx ly Hlen. unfold collect.
  rewrite !Z.eqb_refl.
  assert (H0 : (len lx =? 0) = false) by (apply Z.eqb_neq; lia).
  rewrite H0. reflexivity.
Qed.

(** Under a negative threshold the two tests of [collect] disagree: a
    sample equal to the last accepted one is skipped by the outer test
    although it is further than the threshold from it. *)
Example collect_negative_threshold :
  collect (-1) [5] [5] 5 5 = ([5], [5]).
Proof. reflexivity. Qed.



(** Leaving the loop: the buffer is full. *)
Lemma fix_loop_done :
  forall (keys : list (option key)) (pos : coord) (ms rt : Z)
         (lx ly : list Z) (w : world),
    ms <= len lx ->
    fix_loop keys pos ms rt lx ly w = Return true (after_success w).
Proof.
  intros keys pos ms rt lx ly w Hfull.
  apply Z.ltb_ge in Hfull.
  destruct keys; cbn [fix_loop]; rewrite Hfull; reflexivity.
Qed.

(** One iteration in which no key was pressed and [sample] returned
    [(x, y)] without completing the buffer: the loop goes on with what
    [collect] made of it. *)
Lemma fix_loop_poll :
  forall (keys : list (option key)) (pos : coord) (ms rt : Z)
         (lx ly : list Z) (w w' : world) (x y : Z),
    len lx < ms ->
    sample (after_key_poll w keys) = Return (x, y) w' ->
    len (fst (collect rt lx ly x y)) <> ms ->
    fix_loop (None :: keys) pos ms rt lx ly w
    = fix_loop keys pos ms rt (fst (collect rt lx ly x y))
        (snd (collect rt lx ly x y)) w'.
Proof.
  intros keys pos ms rt lx ly w w' x y Hlen Hsample Hnot.
  apply Z.ltb_lt in Hlen. apply Z.eqb_neq in Hnot.
  cbn [fix_loop]. rewrite Hlen.
  unfold bind at 1. unfold set_keys at 1.
  fold (after_key_poll w keys).
  unfold bind at 1. rewrite Hsample. cbn [fst snd].
  destruct (collect rt lx ly x y) as [lx' ly']. cbn [fst snd] in *.
  rewrite Hnot. reflexivity.
Qed.

(** The same for any threshold, when the sample is not the last accepted
    one over again. *)
Lemma collect_reset_differing :
  forall (rt : Z) (lx ly : list Z) (x y : Z),
    0 <= rt \/ x <> last_of lx \/ y <> last_of ly ->
    0 < len lx ->
    rt < Z.abs (x - last_of lx) \/ rt < Z.abs (y - last_of ly) ->
    collect rt lx ly x y = ([], []).
Proof.
  intros rt lx ly x y [Hrt|Hdiff] Hlen Hdev;
    [apply collect_reset; assumption|].
  unfold collect.
  assert (Hout : (len lx =? 0) || negb (x =? last_of lx)
                 || negb (y =? last_of ly) = true).
  { apply orb_true_iff. destruct Hdiff as [Hx|Hy].
    - left. apply orb_true_iff. right. apply negb_true_iff, Z.eqb_neq, Hx.
    - right. apply negb_true_iff, Z.eqb_neq, Hy. }
  rewrite Hout.
  assert (Hin : (0 <? len lx)
                && ((rt <? Z.abs (x - last_of lx))
                    || (rt <? Z.abs (y - last_of ly))) = true).
  { apply andb_true_iff. split; [apply Z.ltb_lt; exact Hlen|].
    apply orb_true_iff. destruct Hdev; [left|right]; apply Z.ltb_lt; assumption. }
  rewrite Hin. reflexivity.
Qed.

(** C2, as stated, fails under a negative threshold: a sample equal to
    the last accepted one is then further than the threshold from it in
    both axes, the buffer is not empty, and yet line 346 skips the
    sample and the buffer keeps its one entry. *)
Lemma identical_sample_under_negative_threshold_kept :
  0 < len [5]
  /\ (-1 < Z.abs (5 - last_of [5]) \/ -1 < Z.abs (5 - last_of [5]))
  /\ collect (-1) [5] [5] 5 5 = ([5], [5])
  /\ collect (-1) [5] [5] 5 5 <> ([], []).
Proof.
  split; [reflexivity|]. split; [left; reflexivity|].
  split; [reflexivity | discriminate].
Qed.

(** C2, as the code has it.  In an iteration of the convergence loop
    where no key is pressed and the sample pulled is further than
    [reset_threshold] from the last accepted one in either axis, with a
    buffer that is not empty, both lists are emptied, the deviating
    sample is not kept, and the loop goes on polling from the empty
    buffer; this for every threshold that is not negative, and for a
    negative one whenever the sample is not the last accepted one over
    again. *)
Theorem deviating_sample_clears_buffer :
  forall (keys : list (option key)) (pos : coord)
         (min_samples reset_threshold : Z) (lx ly : list Z) (w : world)
         (e : Z) (d : sample_data) (rest : list (option sample_data))
         (x y : Z),
    0 <= reset_threshold \/ x <> last_of lx \/ y <> last_of ly ->
    0 < len lx ->
    len lx < min_samples ->
    is_recording w = true ->
    eye_in_use w = Some e ->
    getNewestSample_replies (eyelink w) = Some d :: rest ->
    gaze_of e d = Some (x, y) ->
    reset_threshold < Z.abs (x - last_of lx)
    \/ reset_threshold < Z.abs (y - last_of ly) ->
    collect reset_threshold lx ly x y = ([], [])
    /\ exists w',
        sample (after_key_poll w keys) = Return (x, y) w'
        /\ getNewestSample_replies (eyelink w') = rest
        /\ fix_loop (None :: keys) pos min_samples reset_threshold lx ly w
           = fix_loop keys pos min_samples reset_threshold [] [] w'.
Proof.
  intros keys pos ms rt lx ly w e d rest x y Hrt Hne Hlen Hrec Heye Hrep
         Hgaze Hdev.
  pose proof (collect_reset_differing rt lx ly x y Hrt Hne Hdev) as Hcollect.
  split; [exact Hcollect|].
  destruct (sample_recording (after_key_poll w keys) e (Some d) rest)
    as (w' & Hrun & _ & _ & Hrest & _); try assumption.
  rewrite Hgaze in Hrun.
  exists w'. split; [exact Hrun|]. split; [exact Hrest|].
  rewrite (fix_loop_poll keys pos ms rt lx ly w w' x y Hlen Hrun).
  - rewrite Hcollect. reflexivity.
  - rewrite Hcollect. cbn. lia.
Qed.

Lemma deviating_sample_clears_buffer_witness :
  collect 10 [5; 6] [5; 5] 100 5 = ([], [])
  /\ exists w',
      sample (after_key_poll jump_world [None]) = Return (100, 5) w'
      /\ getNewestSample_replies (eyelink w') = []
      /\ fix_loop [None; None] (512, 384) 30 10 [5; 6] [5; 5] jump_world
         = fix_loop [None] (512, 384) 30 10 [] [] w'.
Proof.
  apply (deviating_sample_clears_buffer [None] (512, 384) 30 10 [5; 6] [5; 5]
           jump_world right_eye (right_sample (100, 5)) [] 100 5).
  - left. lia.
  - reflexivity.
  - reflexivity.
  - reflexivity.
  - reflexivity.
  - reflexivity.
  - reflexivity.
  - left. vm_compute. reflexivity.
Defined.







(** * Further properties of the session *)

(** ** Eye resolution *)

(** X1. [set_eye_used] maps the tracker's report 1 to the right eye and
    0 or 2 to the left eye, logging the choice as the variable
    [eye_used]; on any other report it raises, logs nothing, and leaves
    the raw report in [eye_used]. *)
Theorem set_eye_used_policy :
  forall (w : world),
    let a := eyeAvailable (eyelink w) in
    (a = right_eye ->
     exists w',
       set_eye_used w = Return tt w'
       /\ eye_used (self w') = Some right_eye
       /\ trace w' = E_sendMessage "var eye_used right" :: trace w)
    /\ (a = left_eye \/ a = binocular ->
        exists w',
          set_eye_used w = Return tt w'
          /\ eye_used (self w') = Some left_eye
          /\ trace w' = E_sendMessage "var eye_used left" :: trace w)
    /\ (a <> right_eye /\ a <> left_eye /\ a <> binocular ->
        exists w',
          set_eye_used w = Raise eye_error w'
          /\ eye_used (self w') = Some a
          /\ trace w' = trace w).
Proof.
  intros w a. subst a. unfold set_eye_used. run_prims.
  repeat split.
  - intros Ha. rewrite Ha. cbn. eexists; repeat split.
  - intros Ha.
    assert (Hr : (eyeAvailable (eyelink w) =? right_eye) = false).
    { apply Z.eqb_neq. unfold left_eye, binocular, right_eye in *. lia. }
    assert (Hl : (eyeAvailable (eyelink w) =? left_eye)
                 || (eyeAvailable (eyelink w) =? binocular) = true).
    { apply orb_true_iff.
      destruct Ha as [Ha|Ha]; [left|right]; apply Z.eqb_eq; exact Ha. }
    rewrite Hr, Hl. eexists; repeat split.
  - intros (Hr & Hl & Hb).
    apply Z.eqb_neq in Hr, Hl, Hb. rewrite Hr, Hl, Hb. cbn.
    eexists; repeat split.
Qed.

Lemma set_eye_used_policy_witness :
  (exists w',
      set_eye_used binocular_world = Return tt w'
      /\ eye_used (self w') = Some left_eye
      /\ trace w' = [E_sendMessage "var eye_used left"])
  /\ (exists w',
         set_eye_used (world_of recording_session eyeless_tracker [])
           = Raise eye_error w'
         /\ eye_used (self w') = Some (-1)
         /\ trace w' = []).
Proof.
  split.
  - apply (proj1 (proj2 (set_eye_used_policy binocular_world))).
    right; reflexivity.
  - apply (proj2 (proj2 (set_eye_used_policy
                           (world_of recording_session eyeless_tracker [])))).
    repeat split; discriminate.
Defined.

(** X2. A failed eye resolution is not retried.  While recording with
    no eye resolved and a tracker report outside 0, 1, 2, [sample] raises
    the resolution error without taking a sample; from then on
    [eye_used] holds the bad report, so the next [sample] does not ask
    the tracker again: it takes the next sample and ends in
    [UnboundLocalError]. *)
Theorem failed_eye_resolution_sticks :
  forall (w : world) (smp : option sample_data)
         (rest : list (option sample_data)),
    is_recording w = true ->
    eye_used (self w) = None ->
    eyeAvailable (eyelink w) <> right_eye ->
    eyeAvailable (eyelink w) <> left_eye ->
    eyeAvailable (eyelink w) <> binocular ->
    getNewestSample_replies (eyelink w) = smp :: rest ->
    exists w1 w2,
      sample w = Raise eye_error w1
      /\ getNewestSample_replies (eyelink w1) = smp :: rest
      /\ eye_used (self w1) = Some (eyeAvailable (eyelink w))
      /\ sample w1 = Raise (UnboundLocalError "gaze") w2
      /\ getNewestSample_replies (eyelink w2) = rest
      /\ trace w2 = trace w1.
Proof.
  intros w smp rest Hrec Hnone Hr Hl Hb Hrep.
  unfold is_recording in Hrec.
  apply Z.eqb_neq in Hr, Hl, Hb.
  eexists. eexists. split; [|split; [|split; [|split]]].
  - unfold sample, set_eye_used. run_prims.
    rewrite Hrec, Hnone. cbn. rewrite Hr, Hl, Hb. cbn. reflexivity.
  - exact Hrep.
  - reflexivity.
  - unfold sample, eye_is. run_prims. cbn. rewrite Hrec. cbn.
    rewrite Hrep. cbn. rewrite Hr, Hl. cbn.
    destruct smp as [d|]; reflexivity.
  - split; reflexivity.
Qed.

Lemma failed_eye_resolution_sticks_witness :
  exists w1 w2,
    sample (world_of recording_session eyeless_tracker []) = Raise eye_error w1
    /\ getNewestSample_replies (eyelink w1)
       = [Some (right_sample (1, 1)); None]
    /\ eye_used (self w1) = Some (-1)
    /\ sample w1 = Raise (UnboundLocalError "gaze") w2
    /\ getNewestSample_replies (eyelink w2) = [None]
    /\ trace w2 = trace w1.
Proof.
  apply (failed_eye_resolution_sticks
           (world_of recording_session eyeless_tracker [])
           (Some (right_sample (1, 1))) [None]);
    try reflexivity; discriminate.
Defined.

(** ** Starting, stopping and closing *)

Lemma startRecording_loop_keeps_self :
  forall (replies : list Z) (i : Z) (w : world),
    self (outcome_world (startRecording_loop replies i w)) = self w.
Proof.
  induction replies as [|error replies IH]; intros i w;
    cbn [startRecording_loop]; [reflexivity|].
  run_prims.
  destruct (error =? 0); [reflexivity|].
  destruct (MAX_TRY <? i); [reflexivity|].
  rewrite IH. reflexivity.
Qed.

(** X3. However [start_recording] ends (returning, raising after the
    retries or on the block-start wait, or still waiting for the
    tracker), the session is marked as recording. *)
Theorem start_recording_marks_recording :
  forall (w : world),
    is_recording (outcome_world (start_recording w)) = true.
Proof.
  intros w. unfold is_recording, start_recording. run_prims.
  match goal with
  | |- context [startRecording_loop ?l ?i ?w1] =>
      pose proof (startRecording_loop_keeps_self l i w1) as Hself;
      destruct (startRecording_loop l i w1) as [[] w2|e w2|w2]
  end; cbn [outcome_world] in *; cbn [self] in Hself.
  - destruct (waitForBlockStart_replies (eyelink w2)) as [|[|] bs];
      cbn; rewrite Hself; reflexivity.
  - rewrite Hself. reflexivity.
  - rewrite Hself. reflexivity.
Qed.

Lemma startRecording_loop_keeps_block_script :
  forall (replies : list Z) (i : Z) (w : world),
    waitForBlockStart_replies
      (eyelink (outcome_world (startRecording_loop replies i w)))
    = waitForBlockStart_replies (eyelink w).
Proof.
  induction replies as [|error replies IH]; intros i w;
    cbn [startRecording_loop]; [reflexivity|].
  run_prims.
  destruct (error =? 0); [reflexivity|].
  destruct (MAX_TRY <? i); [reflexivity|].
  rewrite IH. reflexivity.
Qed.

(** X4. When the tracker accepts the start command after at most 101
    refusals, [start_recording] sends one more command than it was
    refused, enters real-time mode and waits for block start: it returns
    if the tracker reports it and raises the block-start error if not,
    the session marked as recording either way. *)
Theorem start_recording_then_block_start :
  forall (w : world) (fails rest : list Z) (started : bool)
         (blocks : list bool),
    startRecording_replies (eyelink w) = (fails ++ 0 :: rest)%list ->
    Forall (fun error => error <> 0) fails ->
    (List.length fails <= 101)%nat ->
    waitForBlockStart_replies (eyelink w) = started :: blocks ->
    exists w',
      start_recording w
        = (if started then Return tt w' else Raise start_block_start_error w')
      /\ startRecording_calls (trace w')
         = (startRecording_calls (trace w) + S (List.length fails))%nat
      /\ (exists tr,
             trace w' = E_waitForBlockStart :: E_beginRealTimeMode 100 :: tr)
      /\ startRecording_replies (eyelink w') = rest
      /\ waitForBlockStart_replies (eyelink w') = blocks
      /\ is_recording w' = true.
Proof.
  intros w fails rest started blocks Hrep Hall Hlen Hblock.
  unfold start_recording. run_prims. rewrite Hrep.
  match goal with
  | |- context [startRecording_loop _ _ ?w1] =>
      destruct (startRecording_loop_succeeds fails rest 0 w1 Hall)
        as (w2 & Hrun & Hcalls & Hrest & Hself);
        [lia | unfold len, MAX_TRY; lia |];
        pose proof (f_equal outcome_world Hrun) as Hw2;
        cbn [outcome_world] in Hw2
  end.
  rewrite Hrun.
  assert (Hblock2 : waitForBlockStart_replies (eyelink w2) = started :: blocks).
  { rewrite <- Hw2, startRecording_loop_keeps_block_script. exact Hblock. }
  rewrite Hblock2. cbn.
  exists (mkWorld (self w2) (with_waitForBlockStart blocks (eyelink w2))
            (get_key_replies w2) (eyelink_global w2)
            (E_waitForBlockStart :: E_beginRealTimeMode 100 :: trace w2)).
  split; [destruct started; reflexivity|].
  cbn. rewrite Hcalls, Hrest, Hself.
  repeat split. eexists; reflexivity.
Qed.

Lemma start_recording_then_block_start_witness :
  exists w',
    start_recording (world_of fresh_session slow_tracker []) = Return tt w'
    /\ startRecording_calls (trace w') = 3%nat
    /\ (exists tr,
           trace w' = E_waitForBlockStart :: E_beginRealTimeMode 100 :: tr)
    /\ startRecording_replies (eyelink w') = []
    /\ waitForBlockStart_replies (eyelink w') = []
    /\ is_recording w' = true.
Proof.
  apply (start_recording_then_block_start
           (world_of fresh_session slow_tracker []) [1; 1] [] true []).
  - reflexivity.
  - repeat constructor; discriminate.
  - cbn. lia.
  - reflexivity.
Defined.

(** X5. [stop_recording] always returns and clears the flag, whatever it
    was; after it [calibrate] passes its guard again and [sample] and
    [wait_for_event] are refused. *)
Theorem stop_recording_reopens_setup :
  forall (w : world) (beep : bool) (target_size event : Z),
    exists w' w'',
      stop_recording w = Return tt w'
      /\ is_recording w' = false
      /\ trace w' = (stop_effects ++ trace w)%list
      /\ eyelink w' = eyelink w
      /\ calibrate beep target_size w' = Return tt w''
      /\ trace w'' = E_doTrackerSetup :: trace w'
      /\ sample w' = Raise not_recording_error w'
      /\ wait_for_event event w' = Raise not_recording_error w'.
Proof.
  intros w beep target_size event.
  eexists. eexists.
  split; [unfold stop_recording; run_prims; reflexivity|].
  split; [reflexivity|]. split; [reflexivity|]. split; [reflexivity|].
  split; [unfold calibrate; run_prims; cbn; reflexivity|].
  split; [reflexivity|].
  split; [apply sample_not_recording; reflexivity|].
  unfold wait_for_event. run_prims. cbn. reflexivity.
Qed.

(** X6. [close] always returns with the flag clear.  It stops the
    recording first if, and only if, the session was recording, then
    closes the data file, receives it under the session's file name and
    closes the link, in that order. *)
Theorem close_order :
  forall (w : world),
    exists w',
      close w = Return tt w'
      /\ is_recording w' = false
      /\ trace w'
         = (close_effects (data_file (self w))
              ++ (if is_recording w then stop_effects else [])
              ++ trace w)%list.
Proof.
  intros w. unfold close, stop_recording, is_recording. run_prims.
  destruct (recording (self w)) eqn:Hrec; cbn.
  - eexists; repeat split.
  - eexists; split; [reflexivity|]. cbn. rewrite Hrec. split; reflexivity.
Qed.

(** ** More of the convergence loop *)

(** X7. A key seen at the start of any iteration of the convergence loop
    ends it with [False]: the flag is cleared, the line is printed, and
    neither a sample nor a calibration result is asked for in that
    iteration. *)
Theorem fix_loop_cancelled :
  forall (k : key) (keys : list (option key)) (pos : coord)
         (min_samples reset_threshold : Z) (lx ly : list Z) (w : world),
    len lx < min_samples ->
    exists w',
      fix_loop (Some k :: keys) pos min_samples reset_threshold lx ly w
        = Return false w'
      /\ is_recording w' = false
      /\ get_key_replies w' = keys
      /\ eyelink w' = eyelink w
      /\ trace w' = E_print cancel_line :: trace w.
Proof.
  intros k keys pos ms rt lx ly w Hlen.
  apply Z.ltb_lt in Hlen.
  cbn [fix_loop]. rewrite Hlen. run_prims.
  eexists; repeat split.
Qed.

Lemma fix_loop_cancelled_witness :
  exists w',
    fix_loop [Some K_q] (512, 384) 30 10 [5; 6] [5; 5] jump_world
      = Return false w'
    /\ is_recording w' = false
    /\ get_key_replies w' = []
    /\ eyelink w' = eyelink jump_world
    /\ trace w' = [E_print cancel_line].
Proof.
  apply (fix_loop_cancelled K_q [] (512, 384) 30 10 [5; 6] [5; 5] jump_world).
  reflexivity.
Defined.

(** X8. With [min_samples] zero or negative the loop is never entered:
    once block start is reported, [fix_triggered_drift_correction]
    applies the drift correction and returns [True] without polling the
    keyboard or taking a sample. *)
Theorem fix_triggered_without_samples :
  forall (pos : option coord) (min_samples max_dev reset_threshold : Z)
         (w : world) (blocks : list bool),
    min_samples <= 0 ->
    is_recording w = false ->
    waitForBlockStart_replies (eyelink w) = true :: blocks ->
    exists w',
      fix_triggered_drift_correction pos min_samples max_dev reset_threshold w
        = Return true w'
      /\ is_recording w' = false
      /\ get_key_replies w' = get_key_replies w
      /\ getNewestSample_replies (eyelink w')
         = getNewestSample_replies (eyelink w)
      /\ trace w'
         = (E_print success_line :: E_applyDriftCorrect
              :: prepare_effects (default_pos (self w) pos) ++ trace w)%list.
Proof.
  intros pos ms md rt w blocks Hms Hrec Hblock.
  unfold is_recording in Hrec.
  unfold fix_triggered_drift_correction, prepare_drift_correction.
  run_prims. rewrite Hrec. cbn. rewrite Hblock. cbn.
  rewrite fix_loop_done by (unfold len; cbn; lia).
  eexists; repeat split.
Qed.

Lemma fix_triggered_without_samples_witness :
  exists w',
    fix_triggered_drift_correction (Some (10, 20)) 0 60 10
      (drift_world []) = Return true w'
    /\ is_recording w' = false
    /\ get_key_replies w' = repeat None 100
    /\ getNewestSample_replies (eyelink w') = []
    /\ trace w'
       = [E_print success_line; E_applyDriftCorrect; E_waitForBlockStart;
          E_msecDelay 50;
          E_sendCommand "start_drift_correction data = 0 0 1 0";
          E_sendCommand "drift_correction_targets = 10 20";
          E_sendCommand "heuristic_filter = ON"].
Proof.
  apply (fix_triggered_without_samples (Some (10, 20)) 0 60 10
           (drift_world []) []).
  - lia.
  - reflexivity.
  - reflexivity.
Defined.



(** X10. An absent newest sample, or one without the eye in use, polled
    inside fixation-triggered drift correction is not skipped: the
    [UnboundLocalError] of [sample] ends the whole call, with the session
    still marked as recording. *)
Theorem fix_triggered_absent_sample_raises :
  forall (pos : option coord) (min_samples max_dev reset_threshold : Z)
         (w : world) (e : Z) (blocks : list bool) (keys : list (option key))
         (smp : option sample_data) (rest : list (option sample_data)),
    0 < min_samples ->
    is_recording w = false ->
    eye_in_use w = Some e ->
    waitForBlockStart_replies (eyelink w) = true :: blocks ->
    get_key_replies w = None :: keys ->
    getNewestSample_replies (eyelink w) = smp :: rest ->
    (smp = None \/ exists d, smp = Some d /\ gaze_of e d = None) ->
    exists w',
      fix_triggered_drift_correction pos min_samples max_dev reset_threshold w
        = Raise (UnboundLocalError "gaze") w'
      /\ is_recording w' = true.
Proof.
  intros pos ms md rt w e blocks keys smp rest Hms Hrec Heye Hblock Hkeys
         Hrep Habs.
  unfold is_recording in Hrec.
  unfold fix_triggered_drift_correction, prepare_drift_correction.
  unfold bind at 1. unfold get_self at 1. rewrite Hrec.
  run_prims. cbn. rewrite Hblock. cbn. rewrite Hkeys.
  cbn [fix_loop].
  assert (H0 : (len (@nil Z) <? ms) = true) by (apply Z.ltb_lt; exact Hms).
  rewrite H0. run_prims.
  match goal with
  | |- context [sample ?w1] =>
      destruct (sample_recording w1 e smp rest eq_refl Heye Hrep)
        as (w' & Hrun & Hrec' & _)
  end.
  exists w'. split; [|exact Hrec'].
  rewrite Hrun.
  destruct Habs as [->|(d & -> & Hg)]; [|rewrite Hg]; reflexivity.
Qed.

Lemma fix_triggered_absent_sample_raises_witness :
  exists w',
    fix_triggered_drift_correction None 30 60 10
      (world_of fresh_session blind_tracker [None])
      = Raise (UnboundLocalError "gaze") w'
    /\ is_recording w' = true.
Proof.
  apply (fix_triggered_absent_sample_raises None 30 60 10
           (world_of fresh_session blind_tracker [None]) right_eye [] []
           None []);
    try reflexivity.
  left; reflexivity.
Defined.

(** X11. One step of the buffer update keeps the two lists the same
    length and yields one of three things: both lists empty, both
    unchanged, or both with the new sample appended; so the buffer never
    grows by more than one. *)
Theorem collect_keeps_lists_aligned :
  forall (reset_threshold : Z) (lx ly : list Z) (x y : Z),
    List.length lx = List.length ly ->
    let lx' := fst (collect reset_threshold lx ly x y) in
    let ly' := snd (collect reset_threshold lx ly x y) in
    List.length lx' = List.length ly'
    /\ ((lx' = [] /\ ly' = [])
        \/ (lx' = lx /\ ly' = ly)
        \/ (lx' = (lx ++ [x])%list /\ ly' = (ly ++ [y])%list))
    /\ len lx' <= len lx + 1.
Proof.
  intros rt lx ly x y Hlen lx' ly'. subst lx' ly'. unfold collect.
  destruct (_ || _ || _); [destruct (_ && _)|]; cbn [fst snd].
  - split; [reflexivity|]. split; [left; auto|].
    pose proof (len_nonneg lx). cbn. lia.
  - split; [rewrite !length_app, Hlen; reflexivity|].
    split; [right; right; auto|]. rewrite len_app1. lia.
  - split; [exact Hlen|]. split; [right; left; auto | lia].
Qed.

Lemma collect_keeps_lists_aligned_witness :
  List.length (fst (collect 10 [5; 6] [5; 5] 7 5))
    = List.length (snd (collect 10 [5; 6] [5; 5] 7 5))
  /\ ((fst (collect 10 [5; 6] [5; 5] 7 5) = []
       /\ snd (collect 10 [5; 6] [5; 5] 7 5) = [])
      \/ (fst (collect 10 [5; 6] [5; 5] 7 5) = [5; 6]
          /\ snd (collect 10 [5; 6] [5; 5] 7 5) = [5; 5])
      \/ (fst (collect 10 [5; 6] [5; 5] 7 5) = [5; 6; 7]
          /\ snd (collect 10 [5; 6] [5; 5] 7 5) = [5; 5; 5]))
  /\ len (fst (collect 10 [5; 6] [5; 5] 7 5)) <= len [5; 6] + 1.
Proof.
  apply (collect_keeps_lists_aligned 10 [5; 6] [5; 5] 7 5). reflexivity.
Defined.

(** ** Operator-triggered drift correction without a link *)

(** X12. Operator-triggered [drift_correction] on a session that is not
    recording but whose tracker is not connected raises, without asking
    the tracker for a drift correction and without changing anything. *)
Theorem drift_correction_not_connected :
  forall (pos : option coord) (w : world),
    is_recording w = false ->
    isConnected (eyelink w) = false ->
    drift_correction pos false w
    = Raise (runtime_error "The eyelink is not connected") w.
Proof.
  intros pos w Hrec Hconn. unfold is_recording in Hrec.
  unfold drift_correction. run_prims.
  rewrite Hrec. cbn. rewrite Hconn. reflexivity.
Qed.

Lemma drift_correction_not_connected_witness :
  drift_correction None false
    (world_of fresh_session
       (mkTracker None false right_eye 3 4 [] [] [] [] [Gives 0] [] None) [])
  = Raise (runtime_error "The eyelink is not connected")
      (world_of fresh_session
         (mkTracker None false right_eye 3 4 [] [] [] [] [Gives 0] [] None) []).
Proof.
  apply (drift_correction_not_connected None
           (world_of fresh_session
              (mkTracker None false right_eye 3 4 [] [] [] [] [Gives 0] [] None)
              []));
    reflexivity.
Defined.

(** ** Edges of [wait_for_event] *)

Lemma getNextData_until_no_match :
  forall (event : Z) (queue : list link_item) (d : Z) (w : world),
    d <> event ->
    link_queue (eyelink w) = queue ->
    Forall (fun it => item_type it <> event) queue ->
    exists w',
      getNextData_until event queue d w = Pending w'
      /\ link_queue (eyelink w') = []
      /\ self w' = self w
      /\ trace w' = trace w.
Proof.
  induction queue as [|it queue IH]; intros d w Hd Hq Hall;
    rewrite getNextData_until_eq; apply Z.eqb_neq in Hd; rewrite Hd.
  - exists w. unfold pending. repeat split. exact Hq.
  - inversion Hall as [|? ? Hit Hall']; subst.
    unfold bind at 1, upd_eyelink at 1.
    match goal with
    | |- context [getNextData_until _ _ _ ?w1] =>
        destruct (IH (item_type it) w1 Hit eq_refl Hall')
          as (w' & Hrun & Hempty & Hself & Htrace)
    end.
    exists w'. rewrite Hrun. repeat split; assumption.
Qed.

(** X13. Without a timeout, [wait_for_event] on a link queue that holds no
    item of the awaited type takes every item off the queue and does not
    return: it is still polling when the queue is exhausted. *)
Theorem wait_for_event_drains_unmatched :
  forall (event : Z) (w : world) (e : Z),
    event <> 0 ->
    is_recording w = true ->
    eye_in_use w = Some e ->
    Forall (fun it => item_type it <> event) (link_queue (eyelink w)) ->
    exists w',
      wait_for_event event w = Pending w'
      /\ link_queue (eyelink w') = []
      /\ is_recording w' = true.
Proof.
  intros event w e Hev Hrec Heye Hall.
  destruct (resolve_eye_ok w e Heye)
    as (w1 & Hres & He1 & Hrec1 & Hlink1 & Hkeys1).
  destruct (getNextData_until_no_match event (link_queue (eyelink w)) 0 w1)
    as (w' & Hrun & Hempty & Hself & _);
    [congruence | rewrite Hlink1; reflexivity | exact Hall |].
  exists w'. split; [|split; [exact Hempty|]].
  - unfold wait_for_event. unfold bind at 1. unfold get_self at 1.
    unfold is_recording in Hrec. rewrite Hrec. cbn [negb].
    unfold bind at 1. rewrite Hres.
    unfold bind at 1. unfold get_eyelink at 1.
    rewrite Hlink1. unfold bind at 1. rewrite Hrun. reflexivity.
  - unfold is_recording in *. rewrite Hself, Hrec1. exact Hrec.
Qed.

Lemma wait_for_event_drains_unmatched_witness :
  exists w',
    wait_for_event ENDBLINK feed_world = Pending w'
    /\ link_queue (eyelink w') = []
    /\ is_recording w' = true.
Proof.
  apply (wait_for_event_drains_unmatched ENDBLINK feed_world right_eye).
  - discriminate.
  - reflexivity.
  - reflexivity.
  - repeat constructor; discriminate.
Defined.

(** X14. Awaiting type 0 is no wait at all: [d] starts as 0, so the loop
    body never runs and [wait_for_event(0)] returns at once what
    [getFloatData()] holds from before, leaving the queue as it was. *)
Theorem wait_for_event_zero_returns_at_once :
  forall (w : world) (e : Z),
    is_recording w = true ->
    eye_in_use w = Some e ->
    exists w',
      wait_for_event 0 w
        = Return (option_map item_data (current_item (eyelink w))) w'
      /\ eyelink w' = eyelink w.
Proof.
  intros w e Hrec Heye.
  destruct (resolve_eye_ok w e Heye)
    as (w1 & Hres & He1 & Hrec1 & Hlink1 & Hkeys1).
  exists w1. split; [|exact Hlink1].
  unfold wait_for_event. unfold bind at 1. unfold get_self at 1.
  unfold is_recording in Hrec. rewrite Hrec. cbn [negb].
  unfold bind at 1. rewrite Hres.
  unfold bind at 1. unfold get_eyelink at 1.
  unfold bind at 1. rewrite getNextData_until_eq. cbn [Z.eqb].
  unfold ret, getFloatData, bind, get_eyelink. rewrite Hlink1. reflexivity.
Qed.

Lemma wait_for_event_zero_returns_at_once_witness :
  exists w',
    wait_for_event 0 feed_world = Return None w'
    /\ eyelink w' = eyelink feed_world.
Proof.
  apply (wait_for_event_zero_returns_at_once feed_world right_eye);
    reflexivity.
Defined.

(** ** More of the constructor *)

Lemma name_fits_check :
  forall (data_file : string),
    name_fits data_file ->
    (8 <? len (fst (splitext (list_ascii_of_string data_file))))
    || (4 <? len (snd (splitext (list_ascii_of_string data_file)))) = false.
Proof.
  intros f [Hstem Hext]. apply orb_false_iff.
  split; apply Z.ltb_ge; assumption.
Qed.

(** [__init__] once the file name has passed. *)
Ltac enter_init Hfits :=
  unfold libeyelink_init;
  pose proof (name_fits_check _ Hfits) as Hcheck;
  destruct (splitext (list_ascii_of_string _)) as [stem ext];
  cbn [fst snd] in Hcheck; rewrite Hcheck; clear Hcheck;
  run_prims.

(** X15. On a tracker of version below 2 the constructor cannot
    succeed: with a fitting file name and the link up it opens the data
    file, sends the screen coordinates and then fails with
    [AttributeError], the thresholds having been stored under a
    different attribute name than the one read. *)
Theorem init_fails_on_old_tracker :
  forall (resolution : Z * Z) (data_file : string)
         (saccade_velocity_threshold saccade_acceleration_threshold : Z)
         (w : world),
    name_fits data_file ->
    eyelink_global w = true \/ EyeLink_error (eyelink w) = None ->
    getTrackerVersion (eyelink w) < 2 ->
    exists w' tr,
      libeyelink_init resolution data_file saccade_velocity_threshold
        saccade_acceleration_threshold w
        = Raise (AttributeError "saccade_velocity_threshold") w'
      /\ trace w'
         = pixel_coords_command resolution :: E_setOfflineMode
             :: E_flushGetkeyQueue :: E_openDataFile data_file :: tr
      /\ eyelink_global w' = true.
Proof.
  intros resolution data_file svt sat w Hfits Hlink Hver.
  apply Z.leb_gt in Hver.
  enter_init Hfits.
  destruct (eyelink_global w) eqn:Hg; cbn.
  - rewrite Hver. cbn. eexists; eexists; repeat split.
  - destruct Hlink as [Hl|Hl]; [discriminate|]. rewrite Hl. cbn.
    rewrite Hver. cbn. eexists; eexists; repeat split.
Qed.

Lemma init_fails_on_old_tracker_witness :
  exists w' tr,
    libeyelink_init (1024, 768) "default.edf" 35 9500
      (mkWorld fresh_session old_tracker [] false [])
      = Raise (AttributeError "saccade_velocity_threshold") w'
    /\ trace w'
       = pixel_coords_command (1024, 768) :: E_setOfflineMode
           :: E_flushGetkeyQueue :: E_openDataFile "default.edf" :: tr
    /\ eyelink_global w' = true.
Proof.
  apply (init_fails_on_old_tracker (1024, 768) "default.edf" 35 9500
           (mkWorld fresh_session old_tracker [] false [])).
  - split; vm_compute; discriminate.
  - right; reflexivity.
  - reflexivity.
Defined.

(** X16. When no tracker object exists yet and [pylink.EyeLink()]
    raises, the constructor raises a runtime error that carries the
    exception's text; nothing was sent, no data file was opened, and the
    module still has no tracker object, so a later construction tries
    again. *)
Theorem init_connection_failure :
  forall (resolution : Z * Z) (data_file : string)
         (saccade_velocity_threshold saccade_acceleration_threshold : Z)
         (w : world) (e : string),
    name_fits data_file ->
    eyelink_global w = false ->
    EyeLink_error (eyelink w) = Some e ->
    exists w',
      libeyelink_init resolution data_file saccade_velocity_threshold
        saccade_acceleration_threshold w
        = Raise (runtime_error ("Failed to connect to the tracker: " ++ e)) w'
      /\ trace w' = trace w
      /\ eyelink_global w' = false
      /\ eyelink w' = eyelink w.
Proof.
  intros resolution data_file svt sat w e Hfits Hg He.
  enter_init Hfits. rewrite Hg. cbn. rewrite He.
  eexists; repeat split; assumption.
Qed.

Lemma init_connection_failure_witness :
  exists w',
    libeyelink_init (1024, 768) "default.edf" 35 9500
      (mkWorld fresh_session unreachable_tracker [] false [])
      = Raise (runtime_error "Failed to connect to the tracker: no link") w'
    /\ trace w' = []
    /\ eyelink_global w' = false
    /\ eyelink w' = unreachable_tracker.
Proof.
  apply (init_connection_failure (1024, 768) "default.edf" 35 9500
           (mkWorld fresh_session unreachable_tracker [] false []) "no link").
  - split; vm_compute; discriminate.
  - reflexivity.
  - reflexivity.
Defined.

Lemma prefix_cons :
  forall (a : effect) (cmds tr l : list effect),
    l = (cmds ++ tr)%list -> a :: l = ((a :: cmds) ++ tr)%list.
Proof. intros a cmds tr l ->. reflexivity. Qed.

Lemma prefix_nil : forall (tr : list effect), tr = ([] ++ tr)%list.
Proof. reflexivity. Qed.



(** X18. What the constructor configures depends on the tracker's
    versions: past the file-name check, with the link object made and a
    tracker of version 2 or later, the head-target field [HTARGET] is
    asked for in the file and link sample data exactly when the tracker
    version is 3 and its software version at least 4, and the scene
    camera gaze map is switched off exactly when the tracker version
    is 2; this holds whether or not the final connection check passes. *)
Theorem init_version_dependent_commands :
  forall (resolution : Z * Z) (data_file : string)
         (saccade_velocity_threshold saccade_acceleration_threshold : Z)
         (w : world),
    name_fits data_file ->
    eyelink_global w = true \/ EyeLink_error (eyelink w) = None ->
    2 <= getTrackerVersion (eyelink w) ->
    exists cmds,
      trace (outcome_world
               (libeyelink_init resolution data_file saccade_velocity_threshold
                  saccade_acceleration_threshold w))
      = (cmds ++ trace w)%list
      /\ (In htarget_file_command cmds
          <-> getTrackerVersion (eyelink w) = 3 /\ 4 <= software_ver (eyelink w))
      /\ (In htarget_link_command cmds
          <-> getTrackerVersion (eyelink w) = 3 /\ 4 <= software_ver (eyelink w))
      /\ (In gazemap_command cmds <-> getTrackerVersion (eyelink w) = 2).
Proof.
  intros resolution data_file svt sat w Hfits Hlink Hver.
  pose proof Hver as Hver'. apply Z.leb_le in Hver'.
  enter_init Hfits.
  assert (Hopen :
            eyelink_global w = true
            \/ (eyelink_global w = false /\ EyeLink_error (eyelink w) = None)).
  { destruct (eyelink_global w); [left; reflexivity|].
    right. destruct Hlink as [Hg|Hg]; [discriminate|auto]. }
  unfold htarget_file_command, htarget_link_command, gazemap_command.
  destruct Hopen as [Hg|[Hg He]]; rewrite Hg; cbn; [|rewrite He]; cbn;
    rewrite Hver'; cbn;
    destruct (Z.eqb_spec (getTrackerVersion (eyelink w)) 2) as [H2|H2]; cbn;
    destruct (Z.eqb_spec (getTrackerVersion (eyelink w)) 3) as [H3|H3]; cbn;
    try (exfalso; lia);
    try (destruct (Z.leb_spec 4 (software_ver (eyelink w))) as [H4|H4]; cbn);
    destruct (isConnected (eyelink w)); cbn [outcome_world trace];
    eexists;
    (split; [repeat eapply prefix_cons; apply prefix_nil|]);
    cbn [In];
    repeat split; intros;
    repeat match goal with
      | H : _ \/ _ |- _ => destruct H
      | H : _ /\ _ |- _ => destruct H
      | H : False |- _ => destruct H
      | H : @eq effect _ _ |- _ => try discriminate H; clear H
      end;
    try lia; tauto.
Qed.

Lemma init_version_dependent_commands_witness :
  exists cmds,
    trace (outcome_world
             (libeyelink_init (1024, 768) "default.edf" 35 9500
                unconstructed_world))
    = (cmds ++ [])%list
    /\ (In htarget_file_command cmds <-> (3 = 3 /\ 4 <= 4))
    /\ (In htarget_link_command cmds <-> (3 = 3 /\ 4 <= 4))
    /\ (In gazemap_command cmds <-> 3 = 2).
Proof.
  apply (init_version_dependent_commands (1024, 768) "default.edf" 35 9500
           unconstructed_world).
  - split; vm_compute; discriminate.
  - right; reflexivity.
  - vm_compute; discriminate.
Defined.

(** ** File names *)

Lemma rfind_from_spec :
  forall (c : ascii) (p : list ascii) (i : Z),
    rfind_from c p i = -1
    \/ (i <= rfind_from c p i < i + len p
        /\ nth_error p (Z.to_nat (rfind_from c p i - i)) = Some c).
Proof.
  intros c. induction p as [|a p IH]; intros i; cbn [rfind_from].
  - left; reflexivity.
  - destruct (IH (i + 1)) as [Hnone|[Hrange Hnth]].
    + rewrite Hnone. cbn [Z.leb Z.compare].
      destruct (Ascii.eqb_spec a c) as [->|_]; [|left; reflexivity].
      right. unfold len. cbn [List.length]. rewrite Z.sub_diag.
      split; [lia | reflexivity].
    + assert (H0 : (0 <=? rfind_from c p (i + 1)) = true \/
                   (0 <=? rfind_from c p (i + 1)) = false)
        by (destruct (0 <=? rfind_from c p (i + 1)); auto).
      destruct H0 as [H0|H0]; rewrite H0.
      * right. unfold len in *. cbn [List.length]. split; [lia|].
        replace (Z.to_nat (rfind_from c p (i + 1) - i))
          with (S (Z.to_nat (rfind_from c p (i + 1) - (i + 1)))) by lia.
        exact Hnth.
      * destruct (Ascii.eqb_spec a c) as [->|_]; [|left; reflexivity].
        right. unfold len. cbn [List.length]. rewrite Z.sub_diag.
        split; [lia | reflexivity].
Qed.

Lemma skipn_nth_error :
  forall {A} (l : list A) (n : nat) (a : A),
    nth_error l n = Some a -> exists t, skipn n l = a :: t.
Proof.
  intros A. induction l as [|b l IH]; intros [|n] a H; cbn in *;
    try discriminate.
  - inversion H; subst. eexists; reflexivity.
  - apply IH. exact H.
Qed.

(** [splitext] cuts the name in two without losing a character, and the
    extension it returns is empty or begins with the dot: the dot counts
    towards the four characters the constructor allows. *)
Lemma splitext_shape :
  forall (p : list ascii),
    (fst (splitext p) ++ snd (splitext p))%list = p
    /\ (snd (splitext p) = []
        \/ exists t, snd (splitext p) = "."%char :: t)
    /\ len p = len (fst (splitext p)) + len (snd (splitext p)).
Proof.
  intros p.
  assert (Happ : (fst (splitext p) ++ snd (splitext p))%list = p).
  { unfold splitext.
    destruct (rfind "/" p <? rfind "." p); [|apply app_nil_r].
    destruct (existsb _ _); [apply firstn_skipn | apply app_nil_r]. }
  split; [exact Happ|]. split.
  - unfold splitext.
    destruct (Z.ltb_spec (rfind "/" p) (rfind "." p)) as [Hlt|_];
      [|left; reflexivity].
    destruct (existsb _ _); [|left; reflexivity].
    right. cbn [snd].
    unfold rfind in *.
    destruct (rfind_from_spec "." p 0) as [Hnone|[Hrange Hnth]].
    + exfalso.
      destruct (rfind_from_spec "/" p 0) as [Hs|[Hs _]]; lia.
    + rewrite Z.sub_0_r in Hnth.
      apply skipn_nth_error. exact Hnth.
  - rewrite <- Happ at 1. unfold len. rewrite length_app. lia.
Qed.

Lemma length_list_ascii_of_string :
  forall (s : string),
    List.length (list_ascii_of_string s) = String.length s.
Proof.
  induction s as [|a s IH]; cbn; [reflexivity | rewrite IH; reflexivity].
Qed.

(** X19. No data-file name of more than twelve characters gets past the
    constructor, directories included: it is refused with the file-name
    error before anything is sent or set. *)
Theorem init_rejects_long_names :
  forall (resolution : Z * Z) (data_file : string)
         (saccade_velocity_threshold saccade_acceleration_threshold : Z)
         (w : world),
    12 < py_len data_file ->
    libeyelink_init resolution data_file saccade_velocity_threshold
      saccade_acceleration_threshold w = Raise filename_error w.
Proof.
  intros resolution data_file svt sat w Hlong.
  unfold py_len in Hlong. rewrite <- length_list_ascii_of_string in Hlong.
  destruct (splitext_shape (list_ascii_of_string data_file))
    as (_ & _ & Hlen).
  unfold libeyelink_init.
  destruct (splitext (list_ascii_of_string data_file)) as [stem ext].
  cbn [fst snd] in Hlen. unfold len in Hlen at 1.
  assert (Hcheck : (8 <? len stem) || (4 <? len ext) = true).
  { apply orb_true_iff.
    destruct (Z.ltb_spec 8 (len stem)); [left; reflexivity|].
    right. apply Z.ltb_lt. lia. }
  rewrite Hcheck. reflexivity.
Qed.

Lemma init_rejects_long_names_witness :
  libeyelink_init (1024, 768) "data/subject1.edf" 35 9500 unconstructed_world
  = Raise filename_error unconstructed_world.
Proof.
  apply (init_rejects_long_names (1024, 768) "data/subject1.edf" 35 9500
           unconstructed_world).
  vm_compute. reflexivity.
Defined.

(** * Properties of the calibration display *)

(** ** Keys and the calibration state *)

(** No key changes anything but [state]. *)
Lemma get_input_key_frame :
  forall (p : reply (option string)) (g : eyelink_graphics.graphics),
    let g' := snd (eyelink_graphics.get_input_key p g) in
    eyelink_graphics.out g' = eyelink_graphics.out g
    /\ eyelink_graphics.ycenter g' = eyelink_graphics.ycenter g
    /\ eyelink_graphics.imagebuffer g' = eyelink_graphics.imagebuffer g
    /\ eyelink_graphics.pal g' = eyelink_graphics.pal g.
Proof.
  intros [[k|]|] g; cbn; [|repeat split..].
  repeat (match goal with
          | |- context [String.eqb k ?s] => destruct (String.eqb k s)
          end; [cbn; repeat split|]).
  cbn; repeat split.
Qed.

Lemma neutral_poll_keeps_state :
  forall (p : reply (option string)) (g : eyelink_graphics.graphics),
    neutral_poll p ->
    eyelink_graphics.state (snd (eyelink_graphics.get_input_key p g))
    = eyelink_graphics.state g.
Proof.
  intros [[k|]|] g Hn; cbn in *; [|reflexivity..].
  destruct Hn as (Hr & Hq & Hc & Hv).
  apply String.eqb_neq in Hr, Hq, Hc, Hv.
  rewrite Hr, Hq, Hc, Hv.
  repeat (match goal with
          | |- context [String.eqb k ?s] => destruct (String.eqb k s)
          end; [reflexivity|]).
  reflexivity.
Qed.

Lemma run_keys_cons :
  forall (p : reply (option string)) (polls : list (reply (option string)))
         (g : eyelink_graphics.graphics),
    run_keys (p :: polls) g
    = run_keys polls (snd (eyelink_graphics.get_input_key p g)).
Proof. reflexivity. Qed.

Lemma run_keys_neutral :
  forall (polls : list (reply (option string)))
         (g : eyelink_graphics.graphics),
    Forall neutral_poll polls ->
    eyelink_graphics.state (run_keys polls g) = eyelink_graphics.state g.
Proof.
  induction polls as [|p polls IH]; intros g Hall; [reflexivity|].
  inversion Hall as [|? ? Hp Hall']; subst.
  rewrite run_keys_cons.
  rewrite (IH _ Hall'). apply neutral_poll_keeps_state. exact Hp.
Qed.

Lemma run_keys_frame :
  forall (polls : list (reply (option string)))
         (g : eyelink_graphics.graphics),
    eyelink_graphics.out (run_keys polls g) = eyelink_graphics.out g
    /\ eyelink_graphics.ycenter (run_keys polls g) = eyelink_graphics.ycenter g.
Proof.
  induction polls as [|p polls IH]; intros g; [split; reflexivity|].
  rewrite run_keys_cons.
  destruct (IH (snd (eyelink_graphics.get_input_key p g))) as [Ho Hy].
  destruct (get_input_key_frame p g) as (Ho' & Hy' & _).
  cbv zeta in Ho', Hy'. rewrite Ho, Hy, Ho', Hy'. split; reflexivity.
Qed.

Lemma run_keys_state_after :
  forall (polls : list (reply (option string)))
         (g : eyelink_graphics.graphics),
    Forall neutral_poll polls ->
    eyelink_graphics.state (run_keys (Gives (Some "c") :: polls) g)
    = Some "calibration"
    /\ eyelink_graphics.state (run_keys (Gives (Some "v") :: polls) g)
       = Some "validation"
    /\ eyelink_graphics.state (run_keys (Gives (Some "return") :: polls) g)
       = None
    /\ eyelink_graphics.state (run_keys (Gives (Some "q") :: polls) g) = None.
Proof.
  intros polls g Hall.
  repeat split; rewrite run_keys_cons;
    rewrite (run_keys_neutral polls _ Hall); reflexivity.
Qed.

(** X20. The calibration state is set by the last of the keys return, q,
    c and v: after c it is ["calibration"], after v ["validation"],
    after return or q it is cleared, and polls that raise, time out or
    give any other key leave it as it is. *)
Theorem calibration_state_follows_keys :
  forall (polls : list (reply (option string)))
         (g : eyelink_graphics.graphics),
    Forall neutral_poll polls ->
    eyelink_graphics.state (run_keys polls g) = eyelink_graphics.state g
    /\ eyelink_graphics.state (run_keys (Gives (Some "c") :: polls) g)
       = Some "calibration"
    /\ eyelink_graphics.state (run_keys (Gives (Some "v") :: polls) g)
       = Some "validation"
    /\ eyelink_graphics.state (run_keys (Gives (Some "return") :: polls) g)
       = None
    /\ eyelink_graphics.state (run_keys (Gives (Some "q") :: polls) g) = None.
Proof.
  intros polls g Hall.
  split; [apply run_keys_neutral; exact Hall|].
  apply run_keys_state_after. exact Hall.
Qed.

Lemma calibration_state_follows_keys_witness :
  eyelink_graphics.state
    (run_keys [Gives (Some "space"); Throws; Gives None; Gives (Some "up")]
       fresh_graphics) = None
  /\ eyelink_graphics.state
       (run_keys [Gives (Some "c"); Gives (Some "space"); Throws; Gives None;
                  Gives (Some "up")] fresh_graphics)
     = Some "calibration".
Proof.
  assert (Hn : Forall neutral_poll
                 [Gives (Some "space"); Throws; Gives None; Gives (Some "up")]).
  { repeat constructor; discriminate. }
  destruct (calibration_state_follows_keys _ fresh_graphics Hn)
    as (H0 & Hc & _).
  split; [exact H0 | exact Hc].
Defined.

(** X21. [get_input_key] returns [None] exactly when the poll raised or
    timed out, and then the display object is untouched; for a key it
    returns a list of exactly one key input with no modifier, whose code
    is 0 for a key outside its table. *)
Theorem get_input_key_result :
  forall (p : reply (option string)) (g : eyelink_graphics.graphics),
    match p with
    | Gives (Some k) =>
        exists code,
          fst (eyelink_graphics.get_input_key p g)
          = Some [(code, eyelink_graphics.KMOD_NONE)]
          /\ (~ In k ["return"; "space"; "q"; "c"; "v"; "a"; "up"; "down";
                      "left"; "right"] ->
              code = 0
              /\ snd (eyelink_graphics.get_input_key p g) = g)
    | _ => eyelink_graphics.get_input_key p g = (None, g)
    end.
Proof.
  intros [[k|]|] g; [|reflexivity..].
  cbn [eyelink_graphics.get_input_key].
  repeat (match goal with
          | |- context [String.eqb k ?s] =>
              destruct (String.eqb_spec k s) as [->|?];
              [cbn; eexists; split; [reflexivity|];
               intros Hnot; exfalso; apply Hnot; cbn; tauto|]
          end).
  cbn. eexists; split; [reflexivity|]. intros _. split; reflexivity.
Qed.

Lemma good_beep_out :
  forall (g : eyelink_graphics.graphics),
    eyelink_graphics.out
      (eyelink_graphics.play_beep eyelink_graphics.CAL_GOOD_BEEP g)
    = (eyelink_graphics.O_play eyelink_graphics.target_beep_done
         :: eyelink_graphics.O_show
         :: (match eyelink_graphics.state g with
             | Some st =>
                 if String.eqb st "calibration" then
                   [eyelink_graphics.O_text "Press 'v' to validate"
                      (Some (eyelink_graphics.ycenter g + 20));
                    eyelink_graphics.O_text "Success!"
                      (Some (eyelink_graphics.ycenter g - 20))]
                 else if String.eqb st "validation" then
                   [eyelink_graphics.O_text "Press 'Enter' to return to menu"
                      (Some (eyelink_graphics.ycenter g + 20));
                    eyelink_graphics.O_text "Success!"
                      (Some (eyelink_graphics.ycenter g - 20))]
                 else
                   [eyelink_graphics.O_text "Press 'Enter' to return to menu"
                      None]
             | None =>
                 [eyelink_graphics.O_text "Press 'Enter' to return to menu"
                    None]
             end)
         ++ eyelink_graphics.O_clear :: eyelink_graphics.out g)%list.
Proof.
  intros g. unfold eyelink_graphics.play_beep. cbn [Z.eqb orb].
  destruct (eyelink_graphics.state g) as [st|]; [|reflexivity].
  destruct (String.eqb st "calibration"); [reflexivity|].
  destruct (String.eqb st "validation"); reflexivity.
Qed.

Lemma get_input_key_result_witness :
  exists code,
    fst (eyelink_graphics.get_input_key (Gives (Some "x")) fresh_graphics)
    = Some [(code, eyelink_graphics.KMOD_NONE)]
    /\ code = 0.
Proof.
  destruct (get_input_key_result (Gives (Some "x")) fresh_graphics)
    as (code & Hk & H0).
  exists code. split; [exact Hk|].
  apply H0. cbn [In]. intros H.
  repeat (destruct H as [H|H]; [discriminate H|]). exact H.
Defined.

(** X22. What a good-calibration beep shows depends on the keys pressed
    before it: after c (and keys that leave the state alone) the screen
    invites to validate, after v it invites to return to the menu, both
    under "Success!"; after return or q only the return line is shown.
    Each time the done tone is played last. *)
Theorem good_beep_message_follows_keys :
  forall (polls : list (reply (option string)))
         (g : eyelink_graphics.graphics),
    Forall neutral_poll polls ->
    let yc := eyelink_graphics.ycenter g in
    let shown (k : string) :=
      eyelink_graphics.out
        (eyelink_graphics.play_beep eyelink_graphics.CAL_GOOD_BEEP
           (run_keys (Gives (Some k) :: polls) g)) in
    shown "c"
    = (eyelink_graphics.O_play eyelink_graphics.target_beep_done
         :: eyelink_graphics.O_show
         :: eyelink_graphics.O_text "Press 'v' to validate" (Some (yc + 20))
         :: eyelink_graphics.O_text "Success!" (Some (yc - 20))
         :: eyelink_graphics.O_clear :: eyelink_graphics.out g)
    /\ shown "v"
       = (eyelink_graphics.O_play eyelink_graphics.target_beep_done
            :: eyelink_graphics.O_show
            :: eyelink_graphics.O_text "Press 'Enter' to return to menu"
                 (Some (yc + 20))
            :: eyelink_graphics.O_text "Success!" (Some (yc - 20))
            :: eyelink_graphics.O_clear :: eyelink_graphics.out g)
    /\ (forall k, k = "return" \/ k = "q" ->
          shown k
          = (eyelink_graphics.O_play eyelink_graphics.target_beep_done
               :: eyelink_graphics.O_show
               :: eyelink_graphics.O_text "Press 'Enter' to return to menu" None
               :: eyelink_graphics.O_clear :: eyelink_graphics.out g)).
Proof.
  intros polls g Hall yc shown. subst yc shown.
  destruct (run_keys_state_after polls g Hall) as (Hc & Hv & Hr & Hq).
  assert (Hframe : forall k,
             eyelink_graphics.out (run_keys (Gives (Some k) :: polls) g)
             = eyelink_graphics.out g
             /\ eyelink_graphics.ycenter (run_keys (Gives (Some k) :: polls) g)
                = eyelink_graphics.ycenter g)
    by (intros k; apply run_keys_frame).
  repeat split.
  - destruct (Hframe "c") as [Ho Hy].
    rewrite good_beep_out, Hc, Ho, Hy. reflexivity.
  - destruct (Hframe "v") as [Ho Hy].
    rewrite good_beep_out, Hv, Ho, Hy. reflexivity.
  - intros k [->| ->].
    + destruct (Hframe "return") as [Ho Hy].
      rewrite good_beep_out, Hr, Ho. reflexivity.
    + destruct (Hframe "q") as [Ho Hy].
      rewrite good_beep_out, Hq, Ho. reflexivity.
Qed.

Lemma good_beep_message_follows_keys_witness :
  eyelink_graphics.out
    (eyelink_graphics.play_beep eyelink_graphics.CAL_GOOD_BEEP
       (run_keys [Gives (Some "c"); Gives (Some "space"); Gives None]
          fresh_graphics))
  = (eyelink_graphics.O_play eyelink_graphics.target_beep_done
       :: eyelink_graphics.O_show
       :: eyelink_graphics.O_text "Press 'v' to validate" (Some (384 + 20))
       :: eyelink_graphics.O_text "Success!" (Some (384 - 20))
       :: eyelink_graphics.O_clear :: eyelink_graphics.out fresh_graphics).
Proof.
  apply (proj1 (good_beep_message_follows_keys
                  [Gives (Some "space"); Gives None] fresh_graphics
                  ltac:(repeat constructor; discriminate))).
Defined.

(** ** The image palette *)


Lemma palette_loop_spec :
  forall (n i : nat) (r g b pal0 : list Z),
    (i + n <= List.length r)%nat ->
    (i <= Nat.min (List.length g) (List.length b))%nat ->
    eyelink_graphics.palette_loop n i r g b pal0
    = if (i + n <=? Nat.min (List.length g) (List.length b))%nat then
        ((pal0 ++ map (palette_entry r g b) (seq i n))%list, None)
      else
        ((pal0 ++ map (palette_entry r g b)
                    (seq i (Nat.min (List.length g) (List.length b) - i)))%list,
         Some eyelink_graphics.IndexError).
Proof.
  induction n as [|n IH]; intros i r g b pal0 Hr Hm.
  - cbn [eyelink_graphics.palette_loop seq map].
    rewrite Nat.add_0_r.
    destruct (Nat.leb_spec i (Nat.min (List.length g) (List.length b)));
      [rewrite app_nil_r; reflexivity | lia].
  - cbn [eyelink_graphics.palette_loop].
    destruct (Nat.leb_spec (i + S n) (Nat.min (List.length g) (List.length b)))
      as [Hok|Hbad].
    + destruct (nth_error b i) as [rf|] eqn:Hb;
        [|apply nth_error_None in Hb; lia].
      destruct (nth_error g i) as [gf|] eqn:Hg;
        [|apply nth_error_None in Hg; lia].
      destruct (nth_error r i) as [bf|] eqn:Hri;
        [|apply nth_error_None in Hri; lia].
      rewrite IH by lia.
      destruct (Nat.leb_spec (S i + n) (Nat.min (List.length g) (List.length b)));
        [|lia].
      cbn [seq map]. rewrite <- app_assoc. cbn [app].
      unfold palette_entry at 2.
      rewrite (nth_error_nth _ _ 0 Hb), (nth_error_nth _ _ 0 Hg),
        (nth_error_nth _ _ 0 Hri).
      reflexivity.
    + destruct (Nat.eq_dec i (Nat.min (List.length g) (List.length b)))
        as [Heq|Hne].
      * replace (Nat.min (List.length g) (List.length b) - i)%nat
          with 0%nat by lia.
        cbn [seq map]. rewrite app_nil_r.
        destruct (nth_error b i) as [rf|] eqn:Hb; [|reflexivity].
        destruct (nth_error g i) as [gf|] eqn:Hg; [|reflexivity].
        exfalso.
        assert (i < List.length b)%nat
          by (apply nth_error_Some; congruence).
        assert (i < List.length g)%nat
          by (apply nth_error_Some; congruence).
        lia.
      * destruct (nth_error b i) as [rf|] eqn:Hb;
          [|apply nth_error_None in Hb; lia].
        destruct (nth_error g i) as [gf|] eqn:Hg;
          [|apply nth_error_None in Hg; lia].
        destruct (nth_error r i) as [bf|] eqn:Hri;
          [|apply nth_error_None in Hri; lia].
        rewrite IH by lia.
        destruct (Nat.leb_spec (S i + n)
                    (Nat.min (List.length g) (List.length b))); [lia|].
        replace (Nat.min (List.length g) (List.length b) - i)%nat
          with (S (Nat.min (List.length g) (List.length b) - S i))%nat by lia.
        cbn [seq map]. rewrite <- app_assoc. cbn [app].
        unfold palette_entry at 2.
        rewrite (nth_error_nth _ _ 0 Hb), (nth_error_nth _ _ 0 Hg),
          (nth_error_nth _ _ 0 Hri).
        reflexivity.
Qed.

Lemma byte_high_bits :
  forall (z n : Z), is_byte z -> 8 <= n -> Z.testbit z n = false.
Proof.
  intros z n [Hlo Hhi] Hn.
  destruct (Z.eq_dec z 0) as [->|Hz]; [apply Z.bits_0|].
  apply Z.bits_above_log2; [lia|].
  apply Z.log2_lt_pow2; [lia|].
  apply Z.lt_le_trans with (2 ^ 8); [exact Hhi|].
  apply Z.pow_le_mono_r; lia.
Qed.

Lemma mask_bits :
  forall (n : Z), 0 <= n -> Z.testbit 255 n = (n <? 8).
Proof.
  intros n Hn. change 255 with (Z.ones 8).
  destruct (Z.ltb_spec n 8).
  - apply Z.ones_spec_low; lia.
  - apply Z.ones_spec_high; lia.
Qed.

(** The three colour bytes can be read back out of a packed entry. *)
Lemma pack_unpack :
  forall (rf gf bf : Z),
    is_byte rf -> is_byte gf -> is_byte bf ->
    Z.land (eyelink_graphics.pack rf gf bf) 255 = bf
    /\ Z.land (Z.shiftr (eyelink_graphics.pack rf gf bf) 8) 255 = gf
    /\ Z.shiftr (eyelink_graphics.pack rf gf bf) 16 = rf.
Proof.
  intros rf gf bf Hr Hg Hb. unfold eyelink_graphics.pack.
  repeat split; apply Z.bits_inj'; intros n Hn.
  - rewrite Z.land_spec, !Z.lor_spec, !Z.shiftl_spec, mask_bits by lia.
    destruct (Z.ltb_spec n 8).
    + rewrite !Z.testbit_neg_r by lia. cbn. apply andb_true_r.
    + rewrite andb_false_r. symmetry. apply byte_high_bits; assumption.
  - rewrite Z.land_spec, Z.shiftr_spec, !Z.lor_spec, !Z.shiftl_spec, mask_bits
      by lia.
    rewrite (byte_high_bits bf (n + 8)) by (assumption || lia).
    replace (n + 8 - 8) with n by lia.
    destruct (Z.ltb_spec n 8).
    + rewrite Z.testbit_neg_r by lia. cbn.
      rewrite orb_false_r. apply andb_true_r.
    + rewrite andb_false_r. symmetry. apply byte_high_bits; assumption.
  - rewrite Z.shiftr_spec, !Z.lor_spec, !Z.shiftl_spec by lia.
    rewrite (byte_high_bits bf (n + 16)) by (assumption || lia).
    rewrite (byte_high_bits gf (n + 16 - 8)) by (assumption || lia).
    replace (n + 16 - 16) with n by lia.
    rewrite !orb_false_r. reflexivity.
Qed.

Lemma pack_range :
  forall (rf gf bf : Z),
    is_byte rf -> is_byte gf -> is_byte bf ->
    0 <= eyelink_graphics.pack rf gf bf < 2 ^ 24.
Proof.
  intros rf gf bf Hr Hg Hb.
  assert (Hnn : 0 <= eyelink_graphics.pack rf gf bf).
  { unfold eyelink_graphics.pack, is_byte in *.
    repeat (apply Z.lor_nonneg; split);
      try (apply Z.shiftl_nonneg); lia. }
  split; [exact Hnn|].
  destruct (pack_unpack rf gf bf Hr Hg Hb) as (_ & _ & H16).
  assert (H24 : Z.shiftr (eyelink_graphics.pack rf gf bf) 24 = 0).
  { replace 24 with (16 + 8) by lia.
    rewrite <- Z.shiftr_shiftr by lia. rewrite H16.
    apply Z.shiftr_eq_0_iff.
    destruct (Z.eq_dec rf 0) as [->|Hz]; [left; reflexivity|].
    right. unfold is_byte in Hr. split; [lia|].
    apply Z.log2_lt_pow2; lia. }
  apply Z.shiftr_eq_0_iff in H24.
  destruct H24 as [->|[Hpos Hlog]]; [lia|].
  apply Z.log2_lt_pow2; assumption.
Qed.

(** X23. When [g] and [b] are at least as long as [r],
    [set_image_palette] succeeds: it empties the image buffer, clears the
    display and builds a palette with one entry per element of [r]. The
    entry at index [i] packs [b[i]] into bits 16 and up, [g[i]] into
    bits 8 to 15 and [r[i]] into bits 0 to 7, so for colour bytes each
    component can be read back out of it. *)
Theorem set_image_palette_packs :
  forall (r g b : list Z) (gr : eyelink_graphics.graphics),
    (List.length r <= List.length g)%nat ->
    (List.length r <= List.length b)%nat ->
    exists p gr',
      eyelink_graphics.set_image_palette r g b gr = (None, gr')
      /\ eyelink_graphics.pal gr' = Some p
      /\ eyelink_graphics.imagebuffer gr' = []
      /\ eyelink_graphics.out gr'
         = eyelink_graphics.O_show :: eyelink_graphics.O_clear
             :: eyelink_graphics.out gr
      /\ List.length p = List.length r
      /\ forall (i : nat) (ri gi bi : Z),
           nth_error r i = Some ri ->
           nth_error g i = Some gi ->
           nth_error b i = Some bi ->
           exists v,
             nth_error p i = Some v
             /\ v = eyelink_graphics.pack bi gi ri
             /\ (is_byte ri -> is_byte gi -> is_byte bi ->
                 Z.land v 255 = ri
                 /\ Z.land (Z.shiftr v 8) 255 = gi
                 /\ Z.shiftr v 16 = bi).
Proof.
  intros r g b gr Hg Hb.
  unfold eyelink_graphics.set_image_palette.
  rewrite palette_loop_spec by lia.
  destruct (Nat.leb_spec (0 + List.length r)
              (Nat.min (List.length g) (List.length b))); [|lia].
  cbn [app].
  eexists; eexists. split; [reflexivity|].
  split; [reflexivity|]. split; [reflexivity|]. split; [reflexivity|].
  split; [rewrite length_map, length_seq; reflexivity|].
  intros i ri gi bi Hri Hgi Hbi.
  assert (Hi : (i < List.length r)%nat)
    by (apply nth_error_Some; congruence).
  exists (eyelink_graphics.pack bi gi ri).
  split; [|split; [reflexivity|]].
  - rewrite nth_error_map, nth_error_seq.
    destruct (Nat.ltb_spec i (List.length r)); [|lia].
    cbn. unfold palette_entry.
    rewrite (nth_error_nth _ _ 0 Hri), (nth_error_nth _ _ 0 Hgi),
      (nth_error_nth _ _ 0 Hbi).
    reflexivity.
  - intros Hr8 Hg8 Hb8.
    destruct (pack_unpack bi gi ri Hb8 Hg8 Hr8) as (H1 & H2 & H3).
    auto.
Qed.

Lemma set_image_palette_packs_witness :
  exists p gr',
    eyelink_graphics.set_image_palette [255; 1] [0; 2] [16; 3] fresh_graphics
      = (None, gr')
    /\ eyelink_graphics.pal gr' = Some p
    /\ eyelink_graphics.imagebuffer gr' = []
    /\ eyelink_graphics.out gr'
       = eyelink_graphics.O_show :: eyelink_graphics.O_clear
           :: eyelink_graphics.out fresh_graphics
    /\ List.length p = 2%nat
    /\ forall (i : nat) (ri gi bi : Z),
         nth_error [255; 1] i = Some ri ->
         nth_error [0; 2] i = Some gi ->
         nth_error [16; 3] i = Some bi ->
         exists v,
           nth_error p i = Some v
           /\ v = eyelink_graphics.pack bi gi ri
           /\ (is_byte ri -> is_byte gi -> is_byte bi ->
               Z.land v 255 = ri
               /\ Z.land (Z.shiftr v 8) 255 = gi
               /\ Z.shiftr v 16 = bi).
Proof.
  apply (set_image_palette_packs [255; 1] [0; 2] [16; 3] fresh_graphics);
    cbn; lia.
Defined.

(** X24. When [g] or [b] is shorter than [r], [set_image_palette] raises
    [IndexError] out of its loop and leaves behind a truncated palette,
    with as many entries as the shorter of [g] and [b], under an already
    cleared display and emptied image buffer. *)
Theorem set_image_palette_short_channel :
  forall (r g b : list Z) (gr : eyelink_graphics.graphics),
    (Nat.min (List.length g) (List.length b) < List.length r)%nat ->
    exists p gr',
      eyelink_graphics.set_image_palette r g b gr
        = (Some eyelink_graphics.IndexError, gr')
      /\ eyelink_graphics.pal gr' = Some p
      /\ List.length p = Nat.min (List.length g) (List.length b)
      /\ eyelink_graphics.imagebuffer gr' = []
      /\ eyelink_graphics.out gr'
         = eyelink_graphics.O_show :: eyelink_graphics.O_clear
             :: eyelink_graphics.out gr.
Proof.
  intros r g b gr Hshort.
  unfold eyelink_graphics.set_image_palette.
  rewrite palette_loop_spec by lia.
  destruct (Nat.leb_spec (0 + List.length r)
              (Nat.min (List.length g) (List.length b))); [lia|].
  cbn [app].
  eexists; eexists. split; [reflexivity|].
  split; [reflexivity|].
  split; [rewrite length_map, length_seq; lia|].
  split; reflexivity.
Qed.

Lemma set_image_palette_short_channel_witness :
  exists p gr',
    eyelink_graphics.set_image_palette [255; 1; 7] [0; 2] [16; 3; 9]
      fresh_graphics
      = (Some eyelink_graphics.IndexError, gr')
    /\ eyelink_graphics.pal gr' = Some p
    /\ List.length p = 2%nat
    /\ eyelink_graphics.imagebuffer gr' = []
    /\ eyelink_graphics.out gr'
       = eyelink_graphics.O_show :: eyelink_graphics.O_clear
           :: eyelink_graphics.out fresh_graphics.
Proof.
  apply (set_image_palette_short_channel [255; 1; 7] [0; 2] [16; 3; 9]
           fresh_graphics).
  cbn. lia.
Defined.

(** ** Video lines *)

Lemma py_index_In :
  forall {A} (l : list A) (k : Z) (a : A), 
    eyelink_graphics.py_index l k = Some a -> In a l.
Proof.
  intros A l k a. unfold eyelink_graphics.py_index.
  destruct (0 <=? k); [apply nth_error_In|].
  destruct (- len l <=? k); [apply nth_error_In | discriminate].
Qed.

Lemma append_pixel_cases :
  forall (fits_long : Z -> bool) (pal : option (list Z)) (buff ib : list Z)
         (i : nat),
    eyelink_graphics.append_pixel fits_long pal buff ib i = ib
    \/ exists v,
        eyelink_graphics.append_pixel fits_long pal buff ib i
        = (ib ++ [v])%list
        /\ from_palette fits_long pal v.
Proof.
  intros f pal buff ib i. unfold eyelink_graphics.append_pixel.
  destruct pal as [p|]; [|left; reflexivity].
  destruct (nth_error buff i) as [k|]; [|left; reflexivity].
  destruct (eyelink_graphics.py_index p k) as [v|] eqn:Hv;
    [|left; reflexivity].
  destruct (f v) eqn:Hf; [|left; reflexivity].
  right. exists v. split; [reflexivity|].
  exists p. split; [reflexivity|]. split; [|exact Hf].
  apply (py_index_In p k v Hv).
Qed.

Lemma append_line_spec :
  forall (fits_long : Z -> bool) (pal : option (list Z)) (buff : list Z)
         (idx : list nat) (ib : list Z),
    exists added,
      fold_left (eyelink_graphics.append_pixel fits_long pal buff) idx ib
      = (ib ++ added)%list
      /\ (List.length added <= List.length idx)%nat
      /\ Forall (from_palette fits_long pal) added.
Proof.
  intros f pal buff. induction idx as [|i idx IH]; intros ib.
  - exists []. cbn. rewrite app_nil_r. repeat split; constructor.
  - cbn [fold_left].
    destruct (append_pixel_cases f pal buff ib i) as [Hsame|(v & Happ & Hv)].
    + rewrite Hsame. destruct (IH ib) as (added & Hrun & Hlen & Hall).
      exists added. cbn [List.length]. repeat split; auto.
    + rewrite Happ. destruct (IH (ib ++ [v])%list) as (added & Hrun & Hlen & Hall).
      exists (v :: added). rewrite Hrun, <- app_assoc. cbn [app List.length].
      repeat split; [lia | constructor; assumption].
Qed.

(** X25. A video line that is not the last of its frame only extends
    the image buffer: [draw_image_line] appends at most [width] values,
    each an entry of the current palette, draws nothing and never
    raises; without a palette it appends nothing. *)
Theorem draw_image_line_extends_buffer :
  forall (fits_long : Z -> bool) (frame : reply unit)
         (width line totlines : Z) (buff : list Z)
         (g : eyelink_graphics.graphics),
    line <> totlines ->
    exists added,
      eyelink_graphics.draw_image_line fits_long frame width line totlines
        buff g
      = (None,
         eyelink_graphics.set_imagebuffer
           (eyelink_graphics.imagebuffer g ++ added)%list g)
      /\ len added <= Z.max 0 width
      /\ Forall (from_palette fits_long (eyelink_graphics.pal g)) added
      /\ (eyelink_graphics.pal g = None -> added = []).
Proof.
  intros f frame width line totlines buff g Hline.
  apply Z.eqb_neq in Hline.
  unfold eyelink_graphics.draw_image_line. rewrite Hline.
  destruct (append_line_spec f (eyelink_graphics.pal g) buff
              (seq 0 (Z.to_nat width)) (eyelink_graphics.imagebuffer g))
    as (added & Hrun & Hlen & Hall).
  exists added. rewrite Hrun. split; [reflexivity|].
  rewrite length_seq in Hlen.
  split; [unfold len; lia|]. split; [exact Hall|].
  intros Hnone. destruct added as [|v added]; [reflexivity|].
  inversion Hall as [|? ? (p & Hp & _) _]; subst. congruence.
Qed.

Lemma draw_image_line_extends_buffer_witness :
  exists added,
    eyelink_graphics.draw_image_line (fun _ => true) (Gives tt) 3 1 2 [0; 1; 2]
      fresh_graphics
    = (None,
       eyelink_graphics.set_imagebuffer
         (eyelink_graphics.imagebuffer fresh_graphics ++ added)%list
         fresh_graphics)
    /\ len added <= Z.max 0 3
    /\ Forall (from_palette (fun _ => true) (eyelink_graphics.pal fresh_graphics))
         added
    /\ (eyelink_graphics.pal fresh_graphics = None -> added = []).
Proof.
  apply (draw_image_line_extends_buffer (fun _ => true) (Gives tt) 3 1 2
           [0; 1; 2] fresh_graphics).
  discriminate.
Defined.

(** X26. On the last line of a frame, [draw_image_line] first extends
    the buffer as on any line; if the image can be built it clears the
    canvas, shows the frame made of the whole buffer at the current
    size and empties the buffer; if building the image raises, the
    exception gets out, nothing is drawn and the buffer keeps its
    content. *)
Theorem draw_image_line_last_line :
  forall (fits_long : Z -> bool) (frame : reply unit) (width line : Z)
         (buff : list Z) (g : eyelink_graphics.graphics),
    exists added,
      Forall (from_palette fits_long (eyelink_graphics.pal g)) added
      /\ let full := (eyelink_graphics.imagebuffer g ++ added)%list in
         eyelink_graphics.draw_image_line fits_long frame width line line
           buff g
         = match frame with
           | Gives _ =>
               (None,
                eyelink_graphics.set_imagebuffer []
                  (eyelink_graphics.put eyelink_graphics.O_show
                     (eyelink_graphics.put
                        (eyelink_graphics.O_image full (eyelink_graphics.size g))
                        (eyelink_graphics.put eyelink_graphics.O_clear g))))
           | Throws =>
               (Some eyelink_graphics.FrameError,
                eyelink_graphics.set_imagebuffer full g)
           end.
Proof.
  intros f frame width line buff g.
  unfold eyelink_graphics.draw_image_line. rewrite Z.eqb_refl.
  destruct (append_line_spec f (eyelink_graphics.pal g) buff
              (seq 0 (Z.to_nat width)) (eyelink_graphics.imagebuffer g))
    as (added & Hrun & Hlen & Hall).
  exists added. split; [exact Hall|]. cbv zeta. rewrite Hrun.
  destruct frame as [[]|]; reflexivity.
Qed.

Lemma fold_append_valid :
  forall (fits_long : Z -> bool) (p : list Z) (rest pre ib : list Z),
    (forall v, In v p -> fits_long v = true) ->
    Forall (fun k => 0 <= k < len p) rest ->
    fold_left (eyelink_graphics.append_pixel fits_long (Some p) (pre ++ rest))
      (seq (List.length pre) (List.length rest)) ib
    = (ib ++ map (fun k => nth (Z.to_nat k) p 0) rest)%list.
Proof.
  intros f p. induction rest as [|k rest IH]; intros pre ib Hfits Hall.
  - cbn. rewrite app_nil_r. reflexivity.
  - inversion Hall as [|? ? Hk Hall']; subst.
    cbn [List.length seq fold_left map].
    unfold eyelink_graphics.append_pixel at 2.
    rewrite nth_error_app2 by lia. rewrite Nat.sub_diag. cbn [nth_error].
    unfold eyelink_graphics.py_index.
    destruct (Z.leb_spec 0 k) as [_|Hneg]; [|lia].
    assert (Hlt : (Z.to_nat k < List.length p)%nat) by (unfold len in Hk; lia).
    destruct (nth_error p (Z.to_nat k)) as [v|] eqn:Hv;
      [|apply nth_error_None in Hv; lia].
    rewrite (Hfits v (nth_error_In _ _ Hv)).
    replace (pre ++ k :: rest)%list with ((pre ++ [k]) ++ rest)%list
      by (rewrite <- app_assoc; reflexivity).
    replace (S (List.length pre)) with (List.length (pre ++ [k])%list)
      by (rewrite length_app; cbn; lia).
    rewrite (IH (pre ++ [k])%list _ Hfits Hall').
    rewrite <- app_assoc. cbn [app].
    rewrite (nth_error_nth _ _ 0 Hv). reflexivity.
Qed.

Lemma set_image_palette_ok :
  forall (r g b : list Z) (gr : eyelink_graphics.graphics),
    (List.length r <= List.length g)%nat ->
    (List.length r <= List.length b)%nat ->
    eyelink_graphics.set_image_palette r g b gr
    = (None,
       eyelink_graphics.set_pal
         (Some (map (palette_entry r g b) (seq 0 (List.length r))))
         (eyelink_graphics.clear_cal_display
            (eyelink_graphics.set_imagebuffer [] gr))).
Proof.
  intros r g b gr Hg Hb.
  unfold eyelink_graphics.set_image_palette.
  rewrite palette_loop_spec by lia.
  destruct (Nat.leb_spec (0 + List.length r)
              (Nat.min (List.length g) (List.length b))); [|lia].
  reflexivity.
Qed.

(** X27. Palette and video line together: after [set_image_palette] on
    three equally long lists of colour bytes, a line that is not the
    last of its frame, whose [width] is the length of [buff] and whose
    values are indices into the palette, puts into the emptied image
    buffer, for each value [k] in order, the colour packed from [b[k]],
    [g[k]] and [r[k]]. *)
Theorem palette_then_line :
  forall (fits_long : Z -> bool) (frame : reply unit) (line totlines : Z)
         (r g b buff : list Z) (gr : eyelink_graphics.graphics),
    (forall v, 0 <= v < 2 ^ 24 -> fits_long v = true) ->
    List.length g = List.length r ->
    List.length b = List.length r ->
    Forall is_byte r -> Forall is_byte g -> Forall is_byte b ->
    Forall (fun k => 0 <= k < len r) buff ->
    line <> totlines ->
    exists gr1 gr2,
      eyelink_graphics.set_image_palette r g b gr = (None, gr1)
      /\ eyelink_graphics.draw_image_line fits_long frame (len buff) line
           totlines buff gr1 = (None, gr2)
      /\ eyelink_graphics.imagebuffer gr2
         = map (fun k => palette_entry r g b (Z.to_nat k)) buff.
Proof.
  intros f frame line totlines r g b buff gr Hfits Hg Hb Hr8 Hg8 Hb8
         Hbuff Hline.
  rewrite set_image_palette_ok by lia.
  apply Z.eqb_neq in Hline.
  unfold eyelink_graphics.draw_image_line. rewrite Hline.
  eexists; eexists. split; [reflexivity|]. split; [reflexivity|].
  cbn. unfold len. rewrite Nat2Z.id.
  pose proof (fold_append_valid f
                (map (palette_entry r g b) (seq 0 (List.length r))) buff [] [])
    as Hfold.
  cbn [app List.length] in Hfold. rewrite Hfold.
  - apply map_ext_in. intros k Hk.
    rewrite Forall_forall in Hbuff. specialize (Hbuff k Hk).
    unfold len in Hbuff.
    rewrite (nth_indep _ 0 (palette_entry r g b 0))
      by (rewrite length_map, length_seq; lia).
    rewrite map_nth, seq_nth by lia. reflexivity.
  - intros v Hv. apply in_map_iff in Hv. destruct Hv as (j & <- & Hj).
    apply in_seq in Hj. apply Hfits. unfold palette_entry.
    apply pack_range.
    + rewrite Forall_forall in Hb8. apply Hb8, nth_In. lia.
    + rewrite Forall_forall in Hg8. apply Hg8, nth_In. lia.
    + rewrite Forall_forall in Hr8. apply Hr8, nth_In. lia.
  - unfold len. rewrite length_map, length_seq. exact Hbuff.
Qed.

Lemma palette_then_line_witness :
  exists gr1 gr2,
    eyelink_graphics.set_image_palette [255; 1] [0; 2] [16; 3] fresh_graphics
      = (None, gr1)
    /\ eyelink_graphics.draw_image_line (fun v => v <? 2 ^ 31) Throws
         (len [1; 1; 0]) 1 2 [1; 1; 0] gr1 = (None, gr2)
    /\ eyelink_graphics.imagebuffer gr2
       = map (fun k => palette_entry [255; 1] [0; 2] [16; 3] (Z.to_nat k))
           [1; 1; 0].
Proof.
  apply (palette_then_line (fun v => v <? 2 ^ 31) Throws 1 2
           [255; 1] [0; 2] [16; 3] [1; 1; 0] fresh_graphics).
  - intros v Hv. apply Z.ltb_lt. lia.
  - reflexivity.
  - reflexivity.
  - repeat constructor; unfold is_byte; lia.
  - repeat constructor; unfold is_byte; lia.
  - repeat constructor; unfold is_byte; lia.
  - repeat constructor; unfold len; cbn; lia.
  - discriminate.
Defined.

(** ** The backdrop *)

(** X28. [set_backdrop] sends a bitmap to the tracker only for the
    legacy back-end and a prepared image that is a non-empty list, with
    the length of its first line as width and the number of its lines as
    height; called without a prepared image on the legacy back-end it
    always fails on the undefined name [prepare_backdrop]. *)
Theorem set_backdrop_needs_prepared_image :
  forall (canvas_backend : string) (img : backdrop_image) (width height : Z)
         (image : list (list (Z * Z * Z))),
    (set_backdrop canvas_backend img = bitmapBackdrop width height image
     <-> canvas_backend = "legacy"
         /\ image <> []
         /\ img = B_list image
         /\ width = len (hd [] image)
         /\ height = len image)
    /\ set_backdrop "legacy" B_None = backdrop_NameError "prepare_backdrop".
Proof.
  intros backend img width height image.
  split; [|reflexivity].
  unfold set_backdrop.
  destruct (String.eqb_spec backend "legacy") as [->|Hne]; cbn [negb].
  - destruct img as [|[|first lines]|]; split;
      try (intros H; discriminate H);
      try (intros (_ & _ & H & _); discriminate H).
    + intros (_ & Hne & H & _). inversion H; subst. congruence.
    + intros H. inversion H; subst. repeat split. discriminate.
    + intros (_ & _ & H & -> & ->). inversion H; subst. reflexivity.
  - split; [intros H; discriminate H | intros (H & _); contradiction].
Qed.

Lemma set_backdrop_needs_prepared_image_witness :
  set_backdrop "legacy" (B_list [[(0, 0, 0); (255, 255, 255)]])
  = bitmapBackdrop 2 1 [[(0, 0, 0); (255, 255, 255)]].
Proof.
  apply (proj2 (proj1 (set_backdrop_needs_prepared_image "legacy"
                         (B_list [[(0, 0, 0); (255, 255, 255)]]) 2 1
                         [[(0, 0, 0); (255, 255, 255)]]))).
  repeat split. discriminate.
Defined.
